(** * County health lookup service: app.py and csv_to_sqlite.py

    A shallow embedding of the Flask service (request validator, county
    resolver, measure lookup, HTTP surface) and of the CSV loader, followed
    by the properties of the specification stated against it.

    Python strings are sequences of Unicode code points, the parsed JSON body
    is a Python object, dictionaries are finite maps, and the SQLite tables
    are lists of rows whose cells are NULL or TEXT (the loader declares every
    column as TEXT). *)

From Stdlib Require Import String Ascii.
From stdpp Require Import base option list gmap sets sorting numbers.

#[local] Set Warnings "-register-all,-clear-no-such-hyp".
#[local] Open Scope N_scope.

(** ** Python fragment: strings, builtins, exceptions *)

Module Py.

(** A [str] is a sequence of code points; [len] is [length]. *)
Abbreviation str := (list N).

(** String literals of the source (all of them ASCII). *)
Definition lit (s : string) : str :=
  (λ a, N_of_ascii a) <$> list_ascii_of_string s.
Arguments lit s%_string : simpl never.

Definition in_range (c : N) (r : N * N) : bool :=
  (r.1 <=? c) && (c <=? r.2).

(** Code points with Numeric_Type=Decimal: each script's block of ten digits,
    given by the code point of its zero; the mathematical digits
    U+1D7CE..U+1D7FF are five such blocks in a row. *)
Definition decimal_zeros : list N :=
  [ 0x30; 0x660; 0x6F0; 0x7C0; 0x966; 0x9E6; 0xA66; 0xAE6; 0xB66; 0xBE6;
    0xC66; 0xCE6; 0xD66; 0xDE6; 0xE50; 0xED0; 0xF20; 0x1040; 0x1090; 0x17E0;
    0x1810; 0x1946; 0x19D0; 0x1A80; 0x1A90; 0x1B50; 0x1BB0; 0x1C40; 0x1C50;
    0xA620; 0xA8D0; 0xA900; 0xA9D0; 0xA9F0; 0xAA50; 0xABF0; 0xFF10;
    0x104A0; 0x10D30; 0x11066; 0x110F0; 0x11136; 0x111D0; 0x112F0; 0x11450;
    0x114D0; 0x11650; 0x116C0; 0x11730; 0x118E0; 0x11950; 0x11C50; 0x11D50;
    0x11DA0; 0x11F50; 0x16A60; 0x16AC0; 0x16B50;
    0x1D7CE; 0x1D7D8; 0x1D7E2; 0x1D7EC; 0x1D7F6;
    0x1E140; 0x1E2F0; 0x1E4F0; 0x1E950; 0x1FBF0 ].

(** Code points with Numeric_Type=Digit (superscripts, subscripts, circled
    digits and the like), as inclusive ranges. *)
Definition other_digit_ranges : list (N * N) :=
  [ (0xB2, 0xB3); (0xB9, 0xB9); (0x1369, 0x1371); (0x19DA, 0x19DA);
    (0x2070, 0x2070); (0x2074, 0x2079); (0x2080, 0x2089); (0x2460, 0x2468);
    (0x2474, 0x247C); (0x2488, 0x2490); (0x24EA, 0x24EA); (0x24F5, 0x24FD);
    (0x24FF, 0x24FF); (0x2776, 0x277E); (0x2780, 0x2788); (0x278A, 0x2792);
    (0x10A40, 0x10A43); (0x10E60, 0x10E68); (0x11052, 0x1105A);
    (0x1F100, 0x1F10A) ].

Definition digit_ranges : list (N * N) :=
  ((λ z, (z, z + 9)) <$> decimal_zeros) ++ other_digit_ranges.

(** One character of [str.isdigit]: Numeric_Type is Decimal or Digit. *)
Definition isdigit_char (c : N) : bool :=
  existsb (in_range c) digit_ranges.

(** [s.isdigit()]: every character is a digit and there is at least one. *)
Definition isdigit (s : str) : bool :=
  match s with
  | [] => false
  | _ => forallb isdigit_char s
  end.

(** The characters ['0'..'9'] only. *)
Definition is_ascii_digit (c : N) : bool := in_range c (0x30, 0x39).

(** [s.lower()] on the ASCII letters; the column names the service selects
    are ASCII identifiers. Other code points are left as they are (so are
    the letters outside ASCII of a header the loader reads). *)
Definition lower_char (c : N) : N :=
  if in_range c (0x41, 0x5A) then c + 32 else c.

Definition lower (s : str) : str := lower_char <$> s.

(** White space as [str.strip] sees it. *)
Definition whitespace_ranges : list (N * N) :=
  [ (0x09, 0x0D); (0x1C, 0x20); (0x85, 0x85); (0xA0, 0xA0); (0x1680, 0x1680);
    (0x2000, 0x200A); (0x2028, 0x2029); (0x202F, 0x202F); (0x205F, 0x205F);
    (0x3000, 0x3000) ].

Definition isspace_char (c : N) : bool :=
  existsb (in_range c) whitespace_ranges.

Fixpoint lstrip (s : str) : str :=
  match s with
  | c :: s' => if isspace_char c then lstrip s' else s
  | [] => []
  end.

(** [s.strip()]. *)
Definition strip (s : str) : str :=
  reverse (lstrip (reverse (lstrip s))).

(** [a <= b] on strings: code point by code point, a proper prefix first.
    SQLite's BINARY collation on UTF-8 text orders strings the same way. *)
Fixpoint str_leb (a b : str) : bool :=
  match a, b with
  | [], _ => true
  | _ :: _, [] => false
  | x :: a', y :: b' =>
      if x <? y then true
      else if x =? y then str_leb a' b'
      else false
  end.

Definition str_le (a b : str) : Prop := str_leb a b = true.

#[export] Instance str_le_dec (a b : str) : Decision (str_le a b).
Proof. unfold str_le. apply _. Defined.

(** [sorted(xs)] on strings. *)
Definition sorted (xs : list str) : list str := merge_sort str_le xs.

(** The exceptions the two programs can raise. [Unmodelled] marks a call of
    the view function on arguments the validator never lets through. *)
Inductive exn :=
| AttributeError
| TypeError
| KeyError
| BadRequest
| SqliteError
| Unmodelled.

#[export] Instance exn_eq_dec : EqDecision exn.
Proof. solve_decision. Defined.

(** A computation either returns or raises. *)
Inductive result (A : Type) :=
| Return (a : A)
| Raise (e : exn).
Arguments Return {A} a.
Arguments Raise {A} e.

#[export] Instance result_ret : MRet result := λ A a, Return a.

#[export] Instance result_bind : MBind result := λ A B k m,
  match m with
  | Return a => k a
  | Raise e => Raise e
  end.

(** [try: m  except sqlite3.Error: h]. *)
Definition except_sqlite {A} (m : result A) (h : result A) : result A :=
  match m with
  | Raise SqliteError => h
  | _ => m
  end.

End Py.

Export Py.

(** ** JSON values: what [request.get_json()] returns and [jsonify] sends *)

Inductive json :=
| JNull
| JBool (b : bool)
| JInt (z : Z)
| JFloat (bits : N)   (* binary64 pattern; never inspected *)
| JStr (s : str)
| JArr (l : list json)
| JObj (m : gmap str json).

(** ** SQLite fragment: cells, three-valued comparison, the two tables *)

Module Sql.

(** A stored value is NULL or TEXT: the loader creates every column as TEXT
    and inserts strings or None. *)
Abbreviation cell := (option str).

(** [a = b] in a WHERE clause: unknown as soon as one side is NULL. *)
Definition sql_eq (a b : cell) : option bool :=
  match a, b with
  | Some x, Some y => Some (bool_decide (x = y))
  | _, _ => None
  end.

Definition sql_and (p q : option bool) : option bool :=
  match p, q with
  | Some false, _ | _, Some false => Some false
  | Some true, Some true => Some true
  | _, _ => None
  end.

Definition sql_or (p q : option bool) : option bool :=
  match p, q with
  | Some true, _ | _, Some true => Some true
  | Some false, Some false => Some false
  | _, _ => None
  end.

(** A row passes WHERE when the condition is true (neither false nor
    unknown). *)
Definition holds (p : option bool) : Prop := p = Some true.

(** The sort order of ORDER BY on a TEXT column: NULL before every string,
    strings by BINARY collation. *)
Definition cell_leb (a b : cell) : bool :=
  match a, b with
  | None, _ => true
  | Some _, None => false
  | Some x, Some y => str_leb x y
  end.

Definition cell_le (a b : cell) : Prop := cell_leb a b = true.

End Sql.

Export Sql.

(** Table [zip_county]. *)
Module zip_county.
Record row := {
  zip : cell;
  county : cell;
  state_abbreviation : cell;
  county_code : cell }.
End zip_county.

(** Table [county_health_rankings]. *)
Module county_health_rankings.
Record row := {
  confidence_interval_lower_bound : cell;
  confidence_interval_upper_bound : cell;
  county : cell;
  county_code : cell;
  data_release_year : cell;
  denominator : cell;
  fipscode : cell;
  measure_id : cell;
  measure_name : cell;
  numerator : cell;
  raw_value : cell;
  state : cell;
  state_code : cell;
  year_span : cell }.
End county_health_rankings.

(** The database file [data.db] as the service sees it. [connects] is false
    when [sqlite3.connect] raises; a table is [None] when a statement on it
    raises [sqlite3.Error]. *)
Record store := {
  connects : bool;
  zip_county_table : option (list zip_county.row);
  county_health_rankings_table : option (list county_health_rankings.row) }.

(** ** app.py *)

Module App.

Definition VALID_MEASURES : gset str :=
  {[ lit "Violent crime rate";
     lit "Unemployment";
     lit "Children in poverty";
     lit "Diabetic screening";
     lit "Mammography screening";
     lit "Preventable hospital stays";
     lit "Uninsured";
     lit "Sexually transmitted infections";
     lit "Physical inactivity";
     lit "Adult obesity";
     lit "Premature Death";
     lit "Daily fine particulate matter" ]}.

(** The incoming request: [request.is_json] and the object
    [request.get_json()] parses, [None] when the body is not valid JSON. *)
Record request := {
  is_json : bool;
  json_data : option json }.

(** What a view returns: a body and a status code. *)
Inductive payload :=
| Text (s : str)
| Jsonify (j : json).

Record response := {
  body : payload;
  status : N }.

Definition error_body (msg : str) : payload :=
  Jsonify (JObj {[ lit "error" := JStr msg ]}).

(** [request.get_json()]: a body that does not parse is a 400 Bad Request
    raised inside Flask. *)
Definition get_json (req : request) : result json :=
  match json_data req with
  | Some data => Return data
  | None => Raise BadRequest
  end.

(** [get_db]: the connection, or None when connecting fails. *)
Definition get_db (st : store) : option store :=
  if connects st then Some st else None.

(** [sorted(list(VALID_MEASURES))]. *)
Definition sorted_measures : list str := sorted (elements VALID_MEASURES).

(** [measure_name not in VALID_MEASURES]: hashing a list or a dict raises
    TypeError; a value of another type is compared with the members. *)
Definition not_in_measures (measure_name : json) : result bool :=
  match measure_name with
  | JArr _ | JObj _ => Raise TypeError
  | JStr s => Return (bool_decide (s ∉ VALID_MEASURES))
  | _ => Return true
  end.

(** [v == s] for a string literal [s]: only an equal string compares equal.
    [data.get(k)] is None when the key is absent. *)
Definition eq_str (v : option json) (s : str) : bool :=
  match v with
  | Some (JStr x) => bool_decide (x = s)
  | _ => false
  end.

(** [isinstance(zip_code, str) and zip_code.isdigit() and len(zip_code) == 5] *)
Definition zip_ok (zip_code : json) : bool :=
  match zip_code with
  | JStr s => isdigit s && bool_decide (length s = 5%nat)
  | _ => false
  end.

(** The decorator [validate_request] around a view [f]. *)
Definition validate_request (f : request → result response)
    (req : request) : result response :=
  if negb (is_json req) then
    Return {| body := error_body (lit "Content-Type must be application/json");
              status := 400 |}
  else
    data ← get_json req;
    match data with
    | JObj data =>
        if eq_str (data !! lit "coffee") (lit "teapot") then
          Return {| body := Text []; status := 418 |}
        else
          match data !! lit "zip" with
          | None =>
              Return {| body := error_body (lit "zip is required");
                        status := 400 |}
          | Some zip_code =>
              if negb (zip_ok zip_code) then
                Return {| body := error_body (lit "zip must be a 5-digit string");
                          status := 400 |}
              else
                match data !! lit "measure_name" with
                | None =>
                    Return {| body := error_body (lit "measure_name is required");
                              status := 400 |}
                | Some measure_name =>
                    invalid ← not_in_measures measure_name;
                    if invalid : bool then
                      Return {| body := Jsonify (JObj
                                  {[ lit "error" := JStr (lit "Invalid measure_name");
                                     lit "valid_measures" := JArr (JStr <$> sorted_measures) ]});
                                status := 400 |}
                    else f req
                end
          end
    | _ => Raise AttributeError   (* data.get on a list, str, number, None *)
    end.

(** A row of the first query: (county, state_abbreviation, county_code). *)
Abbreviation county_tuple := (cell * cell * cell)%type.

(** SELECT DISTINCT zc.county, zc.state_abbreviation, zc.county_code
    FROM zip_county zc WHERE zc.zip = ?
    SQL fixes no order for the distinct tuples; the model keeps the last
    occurrence of each, in table order. *)
Definition select_counties (db : store) (zip_code : str)
    : result (list county_tuple) :=
  match zip_county_table db with
  | None => Raise SqliteError
  | Some rows =>
      Return (remove_dups
        ((λ zc, (zip_county.county zc, zip_county.state_abbreviation zc,
                 zip_county.county_code zc))
         <$> filter (λ zc, holds (sql_eq (zip_county.zip zc) (Some zip_code)))
               rows))
  end.

Import county_health_rankings.

(** WHERE county = ? AND (state = ? OR state_code = ?) AND measure_name = ? *)
Definition where_clause (p1 p2 p3 p4 : cell) (r : row) : option bool :=
  sql_and (sql_and (sql_eq (county r) p1)
                   (sql_or (sql_eq (state r) p2) (sql_eq (state_code r) p3)))
          (sql_eq (measure_name r) p4).

(** ORDER BY year_span DESC: [r1] may come before [r2]. *)
Definition year_span_desc (r1 r2 : row) : Prop :=
  cell_le (year_span r2) (year_span r1).

#[export] Instance year_span_desc_dec r1 r2 : Decision (year_span_desc r1 r2).
Proof. unfold year_span_desc, cell_le. apply _. Defined.

(** The second query, on the rows of [county_health_rankings]. SQLite leaves
    the order of rows with equal [year_span] open; the model sorts with a
    merge sort. *)
Definition select_measures (db : store) (p1 p2 p3 p4 : cell)
    : result (list row) :=
  match county_health_rankings_table db with
  | None => Raise SqliteError
  | Some rows =>
      Return (merge_sort year_span_desc
                (filter (λ r, holds (where_clause p1 p2 p3 p4 r)) rows))
  end.

(** The select list, in order: the values of a fetched row ... *)
Definition select_list (r : row) : list cell :=
  [ confidence_interval_lower_bound r; confidence_interval_upper_bound r;
    county r; county_code r; data_release_year r; denominator r; fipscode r;
    measure_id r; measure_name r; numerator r; raw_value r; state r;
    state_code r; year_span r ].

(** ... and [cursor.description], the names of its columns. *)
Definition description : list str :=
  [ lit "confidence_interval_lower_bound";
    lit "confidence_interval_upper_bound";
    lit "county"; lit "county_code"; lit "data_release_year";
    lit "denominator"; lit "fipscode"; lit "measure_id"; lit "measure_name";
    lit "numerator"; lit "raw_value"; lit "state"; lit "state_code";
    lit "year_span" ].

(** [str(val) if val is not None else ""]; [str] of a string is the string. *)
Definition render (val : cell) : str :=
  match val with
  | Some s => s
  | None => []
  end.

(** [dict(pairs)]: a later pair overwrites an earlier one with the same key. *)
Definition dict {V} (pairs : list (str * V)) : gmap str V :=
  foldl (λ d kv, <[kv.1 := kv.2]> d) ∅ pairs.

(** [dict(zip(columns, [str(val) if val is not None else "" for val in row]))] *)
Definition row_to_dict (columns : list str) (r : row) : gmap str str :=
  dict (zip columns (render <$> select_list r)).

(** [county_code[:2]]; None is not subscriptable. *)
Definition prefix2 (county_code : cell) : result str :=
  match county_code with
  | Some s => Return (take 2 s)
  | None => Raise TypeError
  end.

(** One turn of the loop over [county_results]: the records found for one
    county tuple (Measure Lookup). *)
Definition measure_lookup (db : store) (county_row : county_tuple)
    (measure_name : str) : result (list (gmap str str)) :=
  let '(county, state_abbr, county_code) := county_row in
  code ← prefix2 county_code;
  select_measures db county state_abbr (Some code) (Some measure_name)
    ≫= λ rows : list row,
  let columns := lower <$> description in
  Return (row_to_dict columns <$> rows).

Arguments row_to_dict : simpl never.
Arguments measure_lookup : simpl never.

(** [for county_row in county_results: ... results.append(result)] *)
Fixpoint county_loop (db : store) (measure_name : str)
    (county_results : list county_tuple) (results : list (gmap str str))
    : result (list (gmap str str)) :=
  match county_results with
  | [] => Return results
  | county_row :: rest =>
      found ← measure_lookup db county_row measure_name;
      county_loop db measure_name rest (results ++ found)
  end.

(** [get_county_data]: the list of records, or None on a database error. *)
Definition get_county_data (st : store) (zip_code measure_name : str)
    : result (option (list (gmap str str))) :=
  except_sqlite
    (match get_db st with
     | None => Return None
     | Some db =>
         county_results ← select_counties db zip_code;
         match county_results with
         | [] => Return (Some [])
         | _ =>
             results ← county_loop db measure_name county_results [];
             Return (Some results)
         end
     end)
    (Return None).

Arguments get_county_data : simpl never.
Arguments sorted_measures : simpl never.

(** [jsonify(results)] for a list of dicts of strings. *)
Definition jsonify_results (results : list (gmap str str)) : json :=
  JArr ((λ d : gmap str str, JObj (JStr <$> d)) <$> results).

(** [data[key]] for an argument of the two queries. The validator has made
    sure both are strings before the view runs. *)
Definition getitem_str (data : json) (key : str) : result str :=
  match data with
  | JObj d =>
      match d !! key with
      | Some (JStr s) => Return s
      | Some _ => Raise Unmodelled
      | None => Raise KeyError
      end
  | _ => Raise TypeError
  end.

(** The view behind POST /county_data, before decoration. *)
Definition county_data_view (st : store) (req : request) : result response :=
  data ← get_json req;
  zip_code ← getitem_str data (lit "zip");
  measure_name ← getitem_str data (lit "measure_name");
  results ← get_county_data st zip_code measure_name;
  match results with
  | None =>
      Return {| body := error_body (lit "Database error occurred");
                status := 500 |}
  | Some [] =>
      Return {| body := error_body (lit "No data found for the given parameters");
                status := 404 |}
  | Some results =>
      Return {| body := Jsonify (jsonify_results results); status := 200 |}
  end.

(** [@validate_request def county_data()] *)
Definition county_data (st : store) : request → result response :=
  validate_request (county_data_view st).

(** GET /measures *)
Definition get_measures : result response :=
  Return {| body := Jsonify (JObj
              {[ lit "measures" := JArr (JStr <$> sorted_measures) ]});
            status := 200 |}.

(** The error handlers registered for 404, 400 and 500. *)
Definition not_found : response :=
  {| body := error_body (lit "Not found"); status := 404 |}.

Definition bad_request : response :=
  {| body := error_body (lit "Bad request"); status := 400 |}.

Definition server_error : response :=
  {| body := error_body (lit "Internal server error"); status := 500 |}.

(** Flask turns what a view raised into a response: an HTTP exception goes
    to the handler of its code, anything else to the 500 handler. *)
Definition finalize (r : result response) : response :=
  match r with
  | Return resp => resp
  | Raise BadRequest => bad_request
  | Raise _ => server_error
  end.

(** The routes the properties below are about. *)
Inductive http_request :=
| POST_county_data (req : request)
| GET_measures
| Unrouted.

Definition serve (st : store) (r : http_request) : response :=
  match r with
  | POST_county_data req => finalize (county_data st req)
  | GET_measures => finalize get_measures
  | Unrouted => not_found
  end.

End App.

(** ** csv_to_sqlite.py *)

Module Loader.

(** What the loader does to the connection, in order. *)
Inductive event :=
| Connect (database_name : str)
| Execute (sql : str)
| ExecuteMany (sql : str) (batch : list (list cell))
| Commit
| Rollback
| Close.

(** The database: whether a call succeeds, given the calls made so far. A
    call that fails raises and leaves no event. *)
Definition database := list event → event → bool.

(** The CSV file as [csv.reader] delivers it: the records, and whether
    reading raises once they are used up instead of ending. *)
Record csv_file := {
  records : list (list str);
  read_fails : bool }.

(** The state of a run: the calls made, and whether an exception is on its
    way to the [except] clause. *)
Record run := {
  log : list event;
  raised : bool }.

(** One call on the connection or the cursor. *)
Definition call (db : database) (ev : event) (r : run) : run :=
  if raised r then r
  else if db (log r) ev then {| log := log r ++ [ev]; raised := false |}
  else {| log := log r; raised := true |}.

Definition slash : N := 0x2F.
Definition dot : N := 0x2E.

Fixpoint take_until (c : N) (s : str) : str :=
  match s with
  | x :: s' => if bool_decide (x = c) then [] else x :: take_until c s'
  | [] => []
  end.

(** [os.path.basename]: what follows the last slash. *)
Definition basename (p : str) : str :=
  reverse (take_until slash (reverse p)).

(** [os.path.splitext(p)[0]] for a name without slash: cut at the last dot,
    unless only dots come before it. *)
Definition splitext_root (p : str) : str :=
  let r := reverse p in
  let ext := take_until dot r in
  if bool_decide (length ext = length r) then p
  else
    let before := drop (S (length ext)) r in
    if forallb (λ x, bool_decide (x = dot)) before then p
    else reverse before.

(** [sep.join(parts)] *)
Fixpoint join (sep : str) (parts : list str) : str :=
  match parts with
  | [] => []
  | [x] => x
  | x :: rest => x ++ sep ++ join sep rest
  end.

Definition common_columns : gset str :=
  {[ lit "zip"; lit "county"; lit "state"; lit "county_code";
     lit "state_code"; lit "measure_name"; lit "fipscode" ]}.

Definition batch_size : nat := 1000.

(** [[val if val.strip() != '' else None for val in row]] *)
Definition processed_row (row : list str) : list cell :=
  (λ val, if bool_decide (strip val ≠ []) then Some val else None) <$> row.

(** The [for row in reader] loop; returns the run and the batch left over. *)
Fixpoint insert_rows (db : database) (insert_sql : str)
    (rows : list (list str)) (batch : list (list cell)) (r : run)
    : run * list (list cell) :=
  match rows with
  | [] => (r, batch)
  | row :: rest =>
      let batch := batch ++ [processed_row row] in
      if bool_decide (batch_size ≤ length batch)%nat then
        let r := call db (ExecuteMany insert_sql batch) r in
        if raised r then (r, []) else insert_rows db insert_sql rest [] r
      else insert_rows db insert_sql rest batch r
  end.

(** The loop creating an index for each commonly queried column. *)
Definition create_indices (db : database) (table_name : str)
    (headers : list str) (r : run) : run :=
  foldl (λ r col,
           if bool_decide (lower col ∈ common_columns) then
             call db (Execute (lit "CREATE INDEX idx_" ++ table_name ++ lit "_"
                                 ++ col ++ lit " ON " ++ table_name ++ lit "("
                                 ++ col ++ lit ")")) r
           else r)
        r headers.

(** The body of the [try] block. *)
Definition load (db : database) (table_name : str) (file : option csv_file)
    (r : run) : run :=
  match file with
  | None => {| log := log r; raised := true |}          (* open() raises *)
  | Some f =>
      match records f with
      | [] => {| log := log r; raised := true |}        (* next(reader) raises *)
      | header :: rows =>
          let headers := (λ h, strip (lower h)) <$> header in
          let r := call db (Execute (lit "DROP TABLE IF EXISTS " ++ table_name)) r in
          let create_table_sql :=
            lit "CREATE TABLE " ++ table_name ++ lit " ("
              ++ join (lit ", ") ((λ col, col ++ lit " TEXT") <$> headers)
              ++ lit ")" in
          let r := call db (Execute create_table_sql) r in
          let r := create_indices db table_name headers r in
          let placeholders := join (lit ", ") ((λ _, lit "?") <$> headers) in
          let insert_sql :=
            lit "INSERT INTO " ++ table_name ++ lit " VALUES ("
              ++ placeholders ++ lit ")" in
          if raised r then r else
          let '(r, batch) := insert_rows db insert_sql rows [] r in
          if raised r then r else
          if read_fails f then {| log := log r; raised := true |} else
          let r :=
            match batch with
            | [] => r
            | _ => call db (ExecuteMany insert_sql batch) r
            end in
          call db Commit r
      end
  end.

(** What a run of the program leaves behind. *)
Record outcome := {
  trace : list event;
  exit_status : N }.

(** [main()], given [sys.argv], the files that can be opened and the
    database. [rollback] and [close] themselves do not fail. *)
Definition main (argv : list str) (fs : str → option csv_file)
    (db : database) : outcome :=
  match argv with
  | [_; database_name; csv_file_name] =>
      let table_name := splitext_root (basename csv_file_name) in
      let r := call db (Connect database_name) {| log := []; raised := false |} in
      if raised r then {| trace := log r; exit_status := 1 |}   (* uncaught *)
      else
        let r := load db table_name (fs csv_file_name) r in
        if raised r then
          {| trace := log r ++ [Rollback; Close]; exit_status := 1 |}
        else
          {| trace := log r ++ [Close]; exit_status := 0 |}
  | _ => {| trace := []; exit_status := 1 |}
  end.







End Loader.

(** ** Vocabulary of the specification *)

Module Spec.
Import App.

(** A request that carries a JSON object [data] without the teapot field. *)
Definition json_object_request (req : request) (data : gmap str json) : Prop :=
  is_json req = true ∧ json_data req = Some (JObj data) ∧
  eq_str (data !! lit "coffee") (lit "teapot") = false.

(** A request that satisfies every rule of the validator, with ZIP [z] and
    measure [m]. *)
Definition valid_lookup_request (req : request) (z m : str) : Prop :=
  ∃ data, json_object_request req data ∧
    data !! lit "zip" = Some (JStr z) ∧ zip_ok (JStr z) = true ∧
    data !! lit "measure_name" = Some (JStr m) ∧ m ∈ VALID_MEASURES.

(** The named outcomes of the validator and of the view. *)
Definition InvalidZip : response :=
  {| body := error_body (lit "zip must be a 5-digit string"); status := 400 |}.

Definition InvalidMeasure : response :=
  {| body := Jsonify (JObj
       {[ lit "error" := JStr (lit "Invalid measure_name");
          lit "valid_measures" := JArr (JStr <$> sorted_measures) ]});
     status := 400 |}.

Definition Teapot : response := {| body := Text []; status := 418 |}.

Definition NotFound : response :=
  {| body := error_body (lit "No data found for the given parameters");
     status := 404 |}.

Definition StorageUnavailable : response :=
  {| body := error_body (lit "Database error occurred"); status := 500 |}.

(** The zip rule in the words of the specification: a string of exactly five
    characters among ['0'..'9']. *)
Definition five_ascii_digits (v : json) : Prop :=
  ∃ s, v = JStr s ∧ length s = 5%nat ∧ forallb is_ascii_digit s = true.

(** The zip rule of the code: a string of exactly five characters that
    [str.isdigit] accepts. *)
Definition five_digits (v : json) : Prop :=
  ∃ s, v = JStr s ∧ length s = 5%nat ∧ forallb isdigit_char s = true.

(** The message of a JSON error body. *)
Definition error_message (r : response) : option str :=
  match body r with
  | Jsonify (JObj m) =>
      match m !! lit "error" with
      | Some (JStr s) => Some s
      | _ => None
      end
  | _ => None
  end.

(** A JSON array of objects all of whose values are strings. *)
Definition string_record (j : json) : Prop :=
  ∃ m, j = JObj m ∧ map_Forall (λ _ v, ∃ s, v = JStr s) m.

Definition string_records (j : json) : Prop :=
  ∃ l, j = JArr l ∧ Forall string_record l.

(** A row of the health table of the store. *)
Definition stored_in (st : store) (r : county_health_rankings.row) : Prop :=
  ∃ tbl, county_health_rankings_table st = Some tbl ∧ r ∈ tbl.

(** The JSON object sent for a stored row. *)
Definition record_of (r : county_health_rankings.row) : gmap str json :=
  JStr <$> row_to_dict (lower <$> description) r.

(** The [year_span] of a returned record, and the descending order on
    records by plain string comparison of it. *)
Definition year_span_of (d : gmap str str) : option str := d !! lit "year_span".

Definition year_span_ge (d1 d2 : gmap str str) : Prop :=
  ∃ y1 y2, year_span_of d1 = Some y1 ∧ year_span_of d2 = Some y2 ∧ str_le y2 y1.

(** The catalog in ascending order, written out. *)
Definition catalog_ascending : list str :=
  [ lit "Adult obesity"; lit "Children in poverty";
    lit "Daily fine particulate matter"; lit "Diabetic screening";
    lit "Mammography screening"; lit "Physical inactivity";
    lit "Premature Death"; lit "Preventable hospital stays";
    lit "Sexually transmitted infections"; lit "Unemployment";
    lit "Uninsured"; lit "Violent crime rate" ].

End Spec.

(** ** Sample data *)

Module Samples.
Import App.

(** A JSON request with the given fields. *)
Definition post (fields : list (str * json)) : request :=
  {| is_json := true; json_data := Some (JObj (dict fields)) |}.

Definition lookup_request (z m : str) : request :=
  post [ (lit "zip", JStr z); (lit "measure_name", JStr m) ].

Definition health_row (c s sc m y : cell) : county_health_rankings.row :=
  {| county_health_rankings.confidence_interval_lower_bound := None;
     county_health_rankings.confidence_interval_upper_bound := None;
     county_health_rankings.county := c;
     county_health_rankings.county_code := Some (lit "061");
     county_health_rankings.data_release_year := None;
     county_health_rankings.denominator := None;
     county_health_rankings.fipscode := Some (lit "36061");
     county_health_rankings.measure_id := Some (lit "11");
     county_health_rankings.measure_name := m;
     county_health_rankings.numerator := Some (lit "12");
     county_health_rankings.raw_value := Some (lit "0.25");
     county_health_rankings.state := s;
     county_health_rankings.state_code := sc;
     county_health_rankings.year_span := y |}.

Definition obesity (s sc y : cell) : county_health_rankings.row :=
  health_row (Some (lit "New York")) s sc (Some (lit "Adult obesity")) y.

(** ZIP 10001 resolves to New York, NY, whose county code starts with "MA"
    here so that the two branches of the state condition can be told apart. *)
Definition new_york : county_tuple :=
  (Some (lit "New York"), Some (lit "NY"), Some (lit "MA061")).

Definition health_rows : list county_health_rankings.row :=
  [ obesity (Some (lit "NY")) (Some (lit "36")) (Some (lit "2014-2018"));
    obesity (Some (lit "XX")) (Some (lit "MA")) (Some (lit "999-1000"));
    obesity (Some (lit "XX")) (Some (lit "MA")) None;
    obesity (Some (lit "XX")) (Some (lit "MA01")) (Some (lit "2019")) ].

Definition sample_store : store :=
  {| connects := true;
     zip_county_table := Some
       [ {| zip_county.zip := Some (lit "10001");
            zip_county.county := Some (lit "New York");
            zip_county.state_abbreviation := Some (lit "NY");
            zip_county.county_code := Some (lit "MA061") |} ];
     county_health_rankings_table := Some health_rows |}.

Definition empty_store : store :=
  {| connects := true;
     zip_county_table := Some [];
     county_health_rankings_table := Some [] |}.

(** Five ARABIC-INDIC digits, U+0661..U+0665. *)
Definition arabic_indic_12345 : str := [0x661; 0x662; 0x663; 0x664; 0x665].



End Samples.

(** ** app.py, continued: the functions behind no endpoint of the lookup *)

Module Inspector.
Import App.

(** [NOT p] and [a IS NOT NULL]; the latter is never unknown. *)
Definition sql_not (p : option bool) : option bool := negb <$> p.

Definition sql_is_not_null (a : cell) : option bool :=
  Some (bool_decide (a ≠ None)).

#[export] Instance cell_le_dec (a b : cell) : Decision (cell_le a b).
Proof. unfold cell_le. apply _. Defined.

(** WHERE measure_name IS NOT NULL AND measure_name != '' *)
Definition names_where (r : county_health_rankings.row) : option bool :=
  sql_and (sql_is_not_null (county_health_rankings.measure_name r))
          (sql_not (sql_eq (county_health_rankings.measure_name r) (Some []))).

(** SELECT DISTINCT measure_name FROM county_health_rankings
    WHERE ... ORDER BY measure_name; the rows hold one value each. *)
Definition select_measure_names (db : store) : result (list cell) :=
  match county_health_rankings_table db with
  | None => Raise SqliteError
  | Some rows =>
      Return (merge_sort cell_le
                (remove_dups
                   (county_health_rankings.measure_name
                    <$> filter (λ r, holds (names_where r)) rows)))
  end.

(** [get_valid_measures]: [[row[0] for row in cursor.fetchall()]], or None
    on a database error. *)
Definition get_valid_measures (st : store) : result (option (list cell)) :=
  except_sqlite
    (match get_db st with
     | None => Return None
     | Some db =>
         measures ← select_measure_names db;
         Return (Some measures)
     end)
    (Return None).

(** What the schema queries of [get_table_info] see of [data.db]: the names
    of the rows of [sqlite_master] with type 'table', and for a table name
    the rows of [PRAGMA table_info(name)], of which the code reads column 1
    (the name) and column 2 (the declared type). [None] is a statement that
    raises [sqlite3.Error]. *)
Record schema := {
  sqlite_master : option (list str);
  pragma_table_info : str → option (list (str * str)) }.

(** [{'columns': [...], 'types': {...}}] *)
Record table_entry := {
  columns : list str;
  types : gmap str str }.

(** [for table in tables: ... table_info[table_name] = {...}] *)
Fixpoint tables_loop (sc : schema) (tables : list str)
    (table_info : gmap str table_entry) : result (gmap str table_entry) :=
  match tables with
  | [] => Return table_info
  | table_name :: rest =>
      match pragma_table_info sc table_name with
      | None => Raise SqliteError
      | Some cols =>
          tables_loop sc rest
            (<[table_name := {| columns := cols.*1; types := dict cols |}]>
               table_info)
      end
  end.

(** [get_table_info]: the dict of tables, or None on a database error. *)
Definition get_table_info (st : store) (sc : schema)
    : result (option (gmap str table_entry)) :=
  except_sqlite
    (match get_db st with
     | None => Return None
     | Some _ =>
         match sqlite_master sc with
         | None => Raise SqliteError
         | Some tables =>
             table_info ← tables_loop sc tables ∅;
             Return (Some table_info)
         end
     end)
    (Return None).

Definition entry_json (e : table_entry) : json :=
  JObj {[ lit "columns" := JArr (JStr <$> columns e);
          lit "types" := JObj (JStr <$> types e) ]}.

(** GET /tables *)
Definition get_tables (st : store) (sc : schema) : result response :=
  table_info ← get_table_info st sc;
  match table_info with
  | None =>
      Return {| body := error_body (lit "Database error occurred");
                status := 500 |}
  | Some table_info =>
      Return {| body := Jsonify (JObj (entry_json <$> table_info));
                status := 200 |}
  end.

End Inspector.

(** ** More named outcomes of the validator *)

Module MoreSpec.
Import App.

Definition InvalidContentType : response :=
  {| body := error_body (lit "Content-Type must be application/json");
     status := 400 |}.

Definition MissingZip : response :=
  {| body := error_body (lit "zip is required"); status := 400 |}.

Definition MissingMeasure : response :=
  {| body := error_body (lit "measure_name is required"); status := 400 |}.

(** A value Python can hash: anything but a list or a dict. *)
Definition hashable (v : json) : bool :=
  match v with
  | JArr _ | JObj _ => false
  | _ => true
  end.

(** A value that is a member of the catalog. *)
Definition in_catalog (v : json) : Prop :=
  ∃ s, v = JStr s ∧ s ∈ VALID_MEASURES.

(** The rows of the health table a county row of [zip_county] selects for
    a measure. *)
Definition selects (zc : zip_county.row) (m : str)
    (r : county_health_rankings.row) : Prop :=
  holds (where_clause (zip_county.county zc)
           (zip_county.state_abbreviation zc)
           (take 2 <$> zip_county.county_code zc) (Some m) r).

(** The records Measure Lookup finds for a county tuple in the rows of a
    readable health table. *)
Definition records_of (hrows : list county_health_rankings.row) (m : str)
    (t : county_tuple) : list (gmap str str) :=
  row_to_dict (lower <$> description) <$>
    merge_sort year_span_desc
      (filter (λ r, holds (where_clause t.1.1 t.1.2 (take 2 <$> t.2)
                              (Some m) r)) hrows).

(** The county tuple of a row of [zip_county]. *)
Definition tuple_of (zc : zip_county.row) : county_tuple :=
  (zip_county.county zc, zip_county.state_abbreviation zc,
   zip_county.county_code zc).

End MoreSpec.

(** ** Vocabulary for the loader *)

Module LoaderSpec.
Import Loader.

(** The statements of [main], as functions of the table name and the
    headers. *)
Definition table_name_of (csv_file_name : str) : str :=
  splitext_root (basename csv_file_name).



Definition create_table_sql (table_name : str) (headers : list str) : str :=
  lit "CREATE TABLE " ++ table_name ++ lit " ("
    ++ join (lit ", ") ((λ col, col ++ lit " TEXT") <$> headers) ++ lit ")".


Definition insert_sql (table_name : str) (headers : list str) : str :=
  lit "INSERT INTO " ++ table_name ++ lit " VALUES ("
    ++ join (lit ", ") ((λ _, lit "?") <$> headers) ++ lit ")".


(** The calls made inside the [try] block. *)
Definition body_event (ev : event) : bool :=
  match ev with
  | Execute _ | ExecuteMany _ _ | Commit => true
  | _ => false
  end.

(** A run extends another by calls of the [try] block only. *)
Definition extends (r r' : run) : Prop :=
  ∃ evs, log r' = log r ++ evs ∧ Forall (λ ev, body_event ev = true) evs.

(** How a run that connected ends: with [close] after the commit, or with
    [rollback] and [close]. *)
Definition ending (exit_status : N) : list event :=
  if bool_decide (exit_status = 0) then [Close] else [Rollback; Close].

(** A string of white space only (the empty string included). *)
Definition blank (s : str) : bool := forallb isspace_char s.


End LoaderSpec.

(** ** More sample data *)

Module MoreSamples.
Import App Inspector.

(** A database holding the two tables of the service. *)
Definition sample_schema : schema :=
  {| sqlite_master := Some [lit "zip_county"; lit "county_health_rankings"];
     pragma_table_info := λ name,
       if bool_decide (name = lit "zip_county") then
         Some [ (lit "zip", lit "TEXT"); (lit "county", lit "TEXT") ]
       else if bool_decide (name = lit "county_health_rankings") then
         Some [ (lit "county", lit "TEXT"); (lit "year_span", lit "TEXT") ]
       else None |}.

(** A store whose ZIP 10001 row has no county code. *)
Definition null_code_store : store :=
  {| connects := true;
     zip_county_table := Some
       [ {| zip_county.zip := Some (lit "10001");
            zip_county.county := Some (lit "New York");
            zip_county.state_abbreviation := Some (lit "NY");
            zip_county.county_code := None |} ];
     county_health_rankings_table := Some Samples.health_rows |}.

(** A store whose health table cannot be read. *)
Definition no_health_store : store :=
  {| connects := true;
     zip_county_table := zip_county_table Samples.sample_store;
     county_health_rankings_table := None |}.

(** A database on which every call succeeds. *)
Definition healthy : Loader.database := λ _ _, true.

(** A file with a header and two records, one cell of which is blank. *)
Definition small_file : Loader.csv_file :=
  {| Loader.records :=
       [ [lit " Zip"; lit "Note "];
         [lit "02139"; lit "  "];
         [lit "10001"; lit " x "] ];
     Loader.read_fails := false |}.

Definition small_argv : list str :=
  [lit "csv_to_sqlite.py"; lit "data.db"; lit "in/zip_county.csv"].

End MoreSamples.

(** * Properties *)

(** ** The order on strings *)

Section string_order.

Lemma str_leb_refl (a : str) : str_leb a a = true.
Proof.
  induction a as [|x a IH]; simpl; [done|].
  rewrite N.ltb_irrefl, N.eqb_refl. exact IH.
Qed.

Lemma str_leb_total (a b : str) : str_leb a b = true ∨ str_leb b a = true.
Proof.
  revert b. induction a as [|x a IH]; intros [|y b]; simpl; auto.
  destruct (N.ltb_spec x y) as [Hxy|Hxy]; [auto|].
  destruct (N.ltb_spec y x) as [Hyx|Hyx]; [auto|].
  assert (x = y) as -> by lia. rewrite N.eqb_refl. apply IH.
Qed.

Lemma str_leb_trans (a b c : str) :
  str_leb a b = true → str_leb b c = true → str_leb a c = true.
Proof.
  revert b c. induction a as [|x a IH]; intros [|y b] [|z c]; simpl; try done.
  destruct (N.ltb_spec x y) as [Hxy|Hxy].
  - intros _. destruct (N.ltb_spec y z) as [Hyz|Hyz].
    + intros _. destruct (N.ltb_spec x z); [done|lia].
    + destruct (N.eqb_spec y z) as [->|]; [|done].
      intros _. destruct (N.ltb_spec x z); [done|lia].
  - destruct (N.eqb_spec x y) as [->|]; [|done].
    intros Hab. destruct (N.ltb_spec y z) as [Hyz|Hyz]; [done|].
    destruct (N.eqb_spec y z) as [->|]; [|done].
    apply IH, Hab.
Qed.

Lemma str_leb_antisym (a b : str) :
  str_leb a b = true → str_leb b a = true → a = b.
Proof.
  revert b. induction a as [|x a IH]; intros [|y b]; simpl; try done.
  destruct (N.ltb_spec x y) as [Hxy|Hxy].
  - intros _. destruct (N.ltb_spec y x); [lia|].
    destruct (N.eqb_spec y x); [lia|done].
  - destruct (N.eqb_spec x y) as [->|]; [|done].
    rewrite N.ltb_irrefl, N.eqb_refl. intros H1 H2. f_equal. by apply IH.
Qed.

#[export] Instance str_le_total : Total str_le.
Proof. intros a b. apply str_leb_total. Qed.

#[export] Instance str_le_trans : Transitive str_le.
Proof. intros a b c. apply str_leb_trans. Qed.

#[export] Instance str_le_antisym : AntiSymm (=) str_le.
Proof. intros a b. apply str_leb_antisym. Qed.

Lemma str_le_nil (a : str) : str_le [] a.
Proof. done. Qed.

Lemma cell_leb_total (a b : cell) : cell_leb a b = true ∨ cell_leb b a = true.
Proof. destruct a, b; simpl; auto using str_leb_total. Qed.

Lemma cell_leb_trans (a b c : cell) :
  cell_leb a b = true → cell_leb b c = true → cell_leb a c = true.
Proof. destruct a, b, c; simpl; try done. apply str_leb_trans. Qed.

(** Rendering NULL as the empty string keeps the order. *)
Lemma render_mono (a b : cell) :
  cell_le a b → str_le (App.render a) (App.render b).
Proof. destruct a, b; simpl; done. Qed.

#[export] Instance year_span_desc_total : Total App.year_span_desc.
Proof. intros r1 r2. unfold App.year_span_desc, cell_le. apply cell_leb_total. Qed.

#[export] Instance year_span_desc_trans : Transitive App.year_span_desc.
Proof.
  intros r1 r2 r3 H12 H23. unfold App.year_span_desc, cell_le in *.
  eapply cell_leb_trans; eauto.
Qed.

(** [sorted] returns the ascending arrangement of its argument. *)
Lemma sorted_spec (xs : list str) :
  StronglySorted str_le (sorted xs) ∧ sorted xs ≡ₚ xs.
Proof.
  split; [apply StronglySorted_merge_sort; apply _|apply merge_sort_Permutation].
Qed.

End string_order.

(** ** The request validator and the HTTP surface *)

Section http_surface.
Import App Spec.

Lemma sorted_measures_eq : sorted_measures = catalog_ascending.
Proof. vm_compute. reflexivity. Qed.

(** Telling two closed responses apart by their status or their error
    message. *)
Ltac differ H :=
  first
    [ apply (f_equal status) in H; vm_compute in H; discriminate H
    | apply (f_equal error_message) in H; vm_compute in H; discriminate H ].

Lemma zip_ok_spec (v : json) : zip_ok v = true ↔ five_digits v.
Proof.
  unfold five_digits. split.
  - destruct v as [| | | |s| |]; simpl; try done.
    rewrite andb_true_iff, bool_decide_eq_true. intros [Hd Hl].
    exists s. split_and!; try done. by destruct s.
  - intros (s & -> & Hl & Hd). simpl.
    rewrite andb_true_iff, bool_decide_eq_true. split; [|done].
    by destruct s.
Qed.

(** What the undecorated view answers is never the InvalidZip response. *)
Lemma view_not_invalid_zip (st : store) (req : request) :
  finalize (county_data_view st req) ≠ InvalidZip.
Proof.
  unfold county_data_view. intros H.
  destruct (get_json req) as [data|e]; simpl in H; [|destruct e; differ H].
  destruct (getitem_str data (lit "zip")) as [z|e]; simpl in H;
    [|destruct e; differ H].
  destruct (getitem_str data (lit "measure_name")) as [m|e]; simpl in H;
    [|destruct e; differ H].
  destruct (get_county_data st z m) as [[[|d ds]|]|e]; simpl in H;
    try (destruct e; differ H);
    apply (f_equal status) in H; discriminate H.
Qed.

(** The responses with status 200 come from the view, not from the
    validator or an error handler. *)
Lemma serve_ok_from_view (st : store) (req : request) :
  status (serve st (POST_county_data req)) = 200 →
  county_data_view st req = Return (serve st (POST_county_data req)).
Proof.
  unfold serve, county_data, validate_request.
  destruct (is_json req); simpl; [|done].
  destruct (get_json req) as [data|e] eqn:Hj; simpl; [|by destruct e].
  destruct data as [| | | | | |data]; simpl; try done.
  destruct (eq_str _ _); simpl; [done|].
  destruct (data !! lit "zip") as [z|]; simpl; [|done].
  destruct (zip_ok z); simpl; [|done].
  destruct (data !! lit "measure_name") as [m|]; simpl; [|done].
  destruct (not_in_measures m) as [[]|e]; simpl; try done; [|by destruct e].
  destruct (county_data_view st req) as [r|e]; simpl; [done|by destruct e].
Qed.

(** C9: GET /measures always answers 200 with the object
    {"measures": [...]} holding the twelve names of the catalog in ascending
    order, and the answer is the same whatever the state of the store at the
    time of the call. *)
Theorem get_measures_sorted_catalog (st st' : store) :
  serve st GET_measures =
    {| body := Jsonify (JObj
         {[ lit "measures" := JArr (JStr <$> catalog_ascending) ]});
       status := 200 |}
  ∧ length catalog_ascending = 12%nat
  ∧ StronglySorted str_le catalog_ascending
  ∧ (∀ m, m ∈ catalog_ascending ↔ m ∈ VALID_MEASURES)
  ∧ serve st GET_measures = serve st' GET_measures.
Proof.
  split_and!.
  - unfold serve, get_measures. simpl. by rewrite sorted_measures_eq.
  - reflexivity.
  - rewrite <- sorted_measures_eq. apply sorted_spec.
  - intros m. rewrite <- sorted_measures_eq. unfold sorted_measures.
    rewrite (proj2 (sorted_spec _)). apply elem_of_elements.
  - reflexivity.
Qed.

(** C3: a JSON body whose field coffee is the string "teapot" is answered
    with status 418 and an empty body, whatever the other fields are. *)
Theorem teapot_takes_priority (st : store) (req : request)
    (data : gmap str json) :
  is_json req = true →
  json_data req = Some (JObj data) →
  data !! lit "coffee" = Some (JStr (lit "teapot")) →
  serve st (POST_county_data req) = Teapot.
Proof.
  intros Hj Hd Hc. unfold serve, county_data, validate_request, get_json.
  rewrite Hj, Hd. simpl. rewrite Hc. reflexivity.
Qed.

Lemma teapot_takes_priority_witness :
  serve Samples.empty_store
    (POST_county_data
       (Samples.post [ (lit "coffee", JStr (lit "teapot"));
                       (lit "zip", JInt 7) ])) = Teapot.
Proof.
  apply (teapot_takes_priority _ _
           (dict [ (lit "coffee", JStr (lit "teapot")); (lit "zip", JInt 7) ]));
    reflexivity.
Defined.

(** C10: a body that is valid JSON but not an object makes the validator's
    [data.get] raise AttributeError, which nothing catches: the answer is the
    one of the 500 handler. *)
Theorem non_object_body_is_server_error (st : store) (req : request)
    (data : json) :
  is_json req = true →
  json_data req = Some data →
  (∀ m, data ≠ JObj m) →
  county_data st req = Raise AttributeError
  ∧ serve st (POST_county_data req) = server_error
  ∧ status (serve st (POST_county_data req)) = 500.
Proof.
  intros Hj Hd Hobj.
  assert (county_data st req = Raise AttributeError) as H.
  { unfold county_data, validate_request, get_json. rewrite Hj, Hd. simpl.
    destruct data; try reflexivity. by destruct (Hobj m). }
  unfold serve. rewrite H. done.
Qed.

Lemma non_object_body_is_server_error_witness :
  let req := {| is_json := true; json_data := Some (JArr [JInt 1]) |} in
  county_data Samples.sample_store req = Raise AttributeError
  ∧ serve Samples.sample_store (POST_county_data req) = server_error
  ∧ status (serve Samples.sample_store (POST_county_data req)) = 500.
Proof.
  apply (non_object_body_is_server_error _ _ (JArr [JInt 1]));
    [reflexivity|reflexivity|discriminate].
Defined.

(** C6, at the failing input: with a valid zip and a measure_name that is a
    JSON array, the membership test raises TypeError and the answer is the
    500 of the generic handler, not the 400 InvalidMeasure response. *)
Theorem unhashable_measure_name_is_server_error (st : store) :
  let req := Samples.post [ (lit "zip", JStr (lit "12345"));
                            (lit "measure_name", JArr []) ] in
  county_data st req = Raise TypeError
  ∧ serve st (POST_county_data req) = server_error
  ∧ serve st (POST_county_data req) ≠ InvalidMeasure.
Proof.
  vm_compute. split_and!; try reflexivity. discriminate.
Qed.

(** A measure_name that can be hashed and is not in the catalog is answered
    with InvalidMeasure, whose payload is the whole catalog in ascending
    order. *)
Lemma invalid_measure_payload (st : store) (req : request)
    (data : gmap str json) (z m : json) :
  json_object_request req data →
  data !! lit "zip" = Some z → zip_ok z = true →
  data !! lit "measure_name" = Some m →
  not_in_measures m = Return true →
  serve st (POST_county_data req) = InvalidMeasure
  ∧ InvalidMeasure =
      {| body := Jsonify (JObj
           {[ lit "error" := JStr (lit "Invalid measure_name");
              lit "valid_measures" := JArr (JStr <$> catalog_ascending) ]});
         status := 400 |}.
Proof.
  intros (Hj & Hd & Hc) Hz Hok Hm Hinv. split.
  - unfold serve, county_data, validate_request, get_json.
    rewrite Hj, Hd. simpl. rewrite Hc, Hz, Hok. simpl. rewrite Hm, Hinv.
    reflexivity.
  - unfold InvalidMeasure. by rewrite sorted_measures_eq.
Qed.

(** C2, as amended: the zip field passes exactly when it is a string of five
    characters that [str.isdigit] accepts; any other value is answered with
    InvalidZip (400). *)
Theorem zip_rule (st : store) (req : request) (data : gmap str json)
    (v : json) :
  json_object_request req data →
  data !! lit "zip" = Some v →
  (serve st (POST_county_data req) = InvalidZip ↔ ¬ five_digits v)
  ∧ status InvalidZip = 400.
Proof.
  intros (Hj & Hd & Hc) Hz. split; [|reflexivity].
  rewrite <- zip_ok_spec. unfold serve, county_data, validate_request, get_json.
  rewrite Hj, Hd. simpl. rewrite Hc, Hz.
  destruct (zip_ok v); simpl.
  - split; [|done]. intros H. exfalso.
    destruct (data !! lit "measure_name") as [m|]; simpl in H; [|differ H].
    destruct (not_in_measures m) as [[]|e]; simpl in H;
      [differ H| |destruct e; differ H].
    by apply view_not_invalid_zip in H.
  - split; [done|reflexivity].
Qed.

Lemma zip_rule_witness :
  let req := Samples.lookup_request (lit "1234") (lit "Unemployment") in
  (serve Samples.empty_store (POST_county_data req) = InvalidZip
   ↔ ¬ five_digits (JStr (lit "1234")))
  ∧ status InvalidZip = 400.
Proof.
  apply (zip_rule _ _
           (dict [ (lit "zip", JStr (lit "1234"));
                   (lit "measure_name", JStr (lit "Unemployment")) ]));
    [repeat split|reflexivity].
Defined.

(** C2, as stated, fails: five ARABIC-INDIC digits are not ASCII digits, yet
    the validator lets them through, and the request is answered 404 by the
    view instead of InvalidZip. *)
Lemma zip_rule_ascii_counterexample :
  let v := JStr Samples.arabic_indic_12345 in
  let req := Samples.lookup_request Samples.arabic_indic_12345
               (lit "Adult obesity") in
  ¬ five_ascii_digits v
  ∧ zip_ok v = true
  ∧ serve Samples.empty_store (POST_county_data req) = NotFound
  ∧ serve Samples.empty_store (POST_county_data req) ≠ InvalidZip.
Proof.
  split_and!.
  - intros (s & [= <-] & _ & Hd). vm_compute in Hd. discriminate.
  - reflexivity.
  - vm_compute. reflexivity.
  - intros H. apply (f_equal status) in H. vm_compute in H. discriminate H.
Qed.

End http_surface.

(** ** County resolver and measure lookup *)

Section lookup.
Import App Spec county_health_rankings.

Lemma sql_eq_holds (a : cell) (x : str) : holds (sql_eq a (Some x)) ↔ a = Some x.
Proof.
  unfold holds. destruct a as [y|]; simpl; [|done].
  case_bool_decide; naive_solver.
Qed.

(** The WHERE clause with four strings bound. *)
Lemma where_clause_spec (c s code m : str) (r : row) :
  holds (where_clause (Some c) (Some s) (Some code) (Some m) r) ↔
    county r = Some c ∧ measure_name r = Some m ∧
    (state r = Some s ∨ state_code r = Some code).
Proof.
  unfold holds, where_clause.
  destruct (county r), (state r), (state_code r), (measure_name r); simpl;
    repeat case_bool_decide; simpl; naive_solver.
Qed.

(** What one turn of the loop returns, when it returns. *)
Lemma measure_lookup_inv (db : store) (c s cc : cell) (m : str)
    (ds : list (gmap str str)) :
  measure_lookup db (c, s, cc) m = Return ds →
  ∃ code tbl, cc = Some code ∧ county_health_rankings_table db = Some tbl ∧
    ds = row_to_dict (lower <$> description) <$>
           merge_sort year_span_desc
             (filter (λ r, holds (where_clause c s (Some (take 2 code)) (Some m) r))
                tbl).
Proof.
  unfold measure_lookup, prefix2, select_measures.
  destruct cc as [code|]; simpl; [|done].
  destruct (county_health_rankings_table db) as [tbl|]; simpl; [|done].
  intros [= <-]. by exists code, tbl.
Qed.

(** The value stored under each lower-cased column name is the rendering of
    the cell at the same place of the select list. *)
Lemma row_to_dict_lookup (r : row) (i : nat) (col : str) (v : cell) :
  description !! i = Some col → select_list r !! i = Some v →
  row_to_dict (lower <$> description) r !! lower col = Some (render v).
Proof.
  destruct r. intros Hc Hv.
  do 14 (destruct i as [|i];
    [injection Hc as <-; injection Hv as <-; vm_compute; reflexivity|]).
  discriminate Hc.
Qed.

Lemma row_to_dict_year_span (r : row) :
  year_span_of (row_to_dict (lower <$> description) r)
    = Some (render (year_span r)).
Proof.
  unfold year_span_of.
  exact (row_to_dict_lookup r 13 (lit "year_span") (year_span r) eq_refl eq_refl).
Qed.

(** The keys of [dict(pairs)] are the first components of the pairs. *)
Lemma dom_foldl_insert {V} (pairs : list (str * V)) (acc : gmap str V) :
  dom (foldl (λ d kv, <[kv.1 := kv.2]> d) acc pairs)
    = dom acc ∪ list_to_set pairs.*1.
Proof.
  revert acc. induction pairs as [|[k v] pairs IH]; intros acc; simpl.
  - set_solver.
  - rewrite IH, dom_insert_L. set_solver.
Qed.

(** The keys of a record are the fourteen lower-cased column names. *)
Lemma row_to_dict_dom (r : row) :
  dom (row_to_dict (lower <$> description) r) = list_to_set description.
Proof.
  unfold row_to_dict, dict. rewrite dom_foldl_insert, dom_empty_L.
  rewrite fst_zip by (rewrite !length_fmap; reflexivity).
  replace (lower <$> description) with description
    by (vm_compute; reflexivity).
  apply (left_id_L ∅ (∪)).
Qed.

(** Measure Lookup for a tuple whose county code is a string, on a table
    that can be read. *)
Lemma measure_lookup_eq (db : store) (tbl : list row) (c s : cell)
    (cc m : str) :
  county_health_rankings_table db = Some tbl →
  measure_lookup db (c, s, Some cc) m
    = Return (row_to_dict (lower <$> description) <$>
                merge_sort year_span_desc
                  (filter (λ r, holds (where_clause c s (Some (take 2 cc))
                                          (Some m) r)) tbl)).
Proof.
  intros Ht. unfold measure_lookup, prefix2, select_measures. simpl.
  by rewrite Ht.
Qed.

(** C1: for a county tuple of three strings and a measure name, Measure
    Lookup returns the records of exactly those stored rows whose county is
    the tuple's county, whose measure_name is the measure, and whose state is
    the tuple's state abbreviation or whose state_code is the first two
    characters of the tuple's county code. *)
Theorem measure_lookup_dual_match (db : store) (tbl : list row)
    (c s cc m : str) :
  county_health_rankings_table db = Some tbl →
  ∃ rows,
    measure_lookup db (Some c, Some s, Some cc) m
      = Return (row_to_dict (lower <$> description) <$> rows)
    ∧ ∀ r, r ∈ rows ↔
        r ∈ tbl ∧ county r = Some c ∧ measure_name r = Some m ∧
        (state r = Some s ∨ state_code r = Some (take 2 cc)).
Proof.
  intros Ht. eexists. split; [by apply measure_lookup_eq|].
  intros r. rewrite merge_sort_Permutation, list_elem_of_filter.
  rewrite where_clause_spec. naive_solver.
Qed.

(** At the sample store both branches of the state condition are seen at
    work: a row whose state is not the tuple's abbreviation is returned
    through its state_code "MA", and a row whose state_code is "MA01" is
    not. *)
Lemma measure_lookup_dual_match_witness :
  let by_code := Samples.obesity (Some (lit "XX")) (Some (lit "MA"))
                   (Some (lit "999-1000")) in
  let longer := Samples.obesity (Some (lit "XX")) (Some (lit "MA01"))
                  (Some (lit "2019")) in
  ∃ rows,
    measure_lookup Samples.sample_store Samples.new_york (lit "Adult obesity")
      = Return (row_to_dict (lower <$> description) <$> rows)
    ∧ by_code ∈ rows ∧ longer ∉ rows.
Proof.
  intros by_code longer.
  destruct (measure_lookup_dual_match Samples.sample_store Samples.health_rows
              (lit "New York") (lit "NY") (lit "MA061") (lit "Adult obesity")
              eq_refl) as (rows & Heq & Hiff).
  exists rows. split; [exact Heq|]. rewrite !Hiff. split.
  - split; [|repeat split; right; reflexivity].
    apply list_elem_of_In. vm_compute. tauto.
  - intros (_ & _ & _ & [H|H]); vm_compute in H; discriminate H.
Defined.

(** C5: the records Measure Lookup returns for one county tuple each carry a
    year_span, and come in descending order of it as plain strings. *)
Theorem measure_lookup_sorted_by_year_span (db : store) (t : county_tuple)
    (m : str) (ds : list (gmap str str)) :
  measure_lookup db t m = Return ds →
  StronglySorted year_span_ge ds
  ∧ Forall (λ d, is_Some (year_span_of d)) ds.
Proof.
  destruct t as [[c s] cc]. intros H.
  apply measure_lookup_inv in H as (code & tbl & _ & _ & ->). split.
  - apply StronglySorted_fmap with (R1 := year_span_desc).
    + intros r1 r2 Hr. unfold year_span_ge.
      rewrite !row_to_dict_year_span. do 2 eexists. split_and!; try done.
      by apply render_mono.
    + apply StronglySorted_merge_sort; apply _.
  - apply Forall_fmap, list.Forall_forall. intros r _. simpl.
    rewrite row_to_dict_year_span. by eexists.
Qed.

Lemma measure_lookup_sorted_by_year_span_witness :
  ∃ rows,
    (year_span <$> rows)
      = [ Some (lit "999-1000"); Some (lit "2014-2018"); None ]
    ∧ StronglySorted year_span_ge (row_to_dict (lower <$> description) <$> rows)
    ∧ Forall (λ d, is_Some (year_span_of d))
        (row_to_dict (lower <$> description) <$> rows).
Proof.
  eexists. split; [|
    apply (measure_lookup_sorted_by_year_span Samples.sample_store
             Samples.new_york (lit "Adult obesity"));
    apply (measure_lookup_eq _ Samples.health_rows); reflexivity].
  vm_compute. reflexivity.
Defined.

(** Every record the loop collects is the record of a stored row. *)
Lemma county_loop_rows (db : store) (m : str) (ts : list county_tuple)
    (acc res : list (gmap str str)) :
  county_loop db m ts acc = Return res →
  (∃ rows, Forall (stored_in db) rows
           ∧ acc = row_to_dict (lower <$> description) <$> rows) →
  ∃ rows, Forall (stored_in db) rows
          ∧ res = row_to_dict (lower <$> description) <$> rows.
Proof.
  revert acc. induction ts as [|[[c s] cc] ts IH]; intros acc.
  - intros [= <-]. done.
  - change (county_loop db m ((c, s, cc) :: ts) acc)
      with (measure_lookup db (c, s, cc) m
              ≫= λ found, county_loop db m ts (acc ++ found)).
    destruct (measure_lookup db (c, s, cc) m) as [found|] eqn:Hl; [|done].
    cbn [mbind result_bind].
    intros Hloop (rows & Hrows & ->). apply (IH _ Hloop).
    apply measure_lookup_inv in Hl as (code & tbl & _ & Ht & ->).
    eexists (rows ++ _). rewrite fmap_app. split; [|reflexivity].
    apply list.Forall_app. split; [done|]. apply list.Forall_forall. intros r Hr.
    rewrite merge_sort_Permutation, list_elem_of_filter in Hr.
    exists tbl. split; [done|apply Hr].
Qed.

Lemma get_county_data_rows (st : store) (z m : str)
    (ds : list (gmap str str)) :
  get_county_data st z m = Return (Some ds) →
  ∃ rows, Forall (stored_in st) rows
          ∧ ds = row_to_dict (lower <$> description) <$> rows.
Proof.
  unfold get_county_data, get_db.
  destruct (connects st); [|done].
  destruct (select_counties st z) as [[|t ts]|e];
    cbn [except_sqlite mbind result_bind]; [| |by destruct e].
  - intros [= <-]. by exists [].
  - destruct (county_loop st m (t :: ts) []) as [res|e] eqn:Hloop;
      cbn [except_sqlite mbind result_bind]; [|by destruct e].
    intros [= <-]. apply (county_loop_rows _ _ _ _ _ Hloop). by exists [].
Qed.

(** A county tuple whose county code is NULL makes the slice raise. *)
Lemma measure_lookup_null_county_code (db : store) (c s : cell) (m : str) :
  measure_lookup db (c, s, None) m = Raise TypeError.
Proof. reflexivity. Qed.

(** Measure Lookup raises nothing but the TypeError of the slice and the
    error of the database. *)
Lemma measure_lookup_raises (db : store) (t : county_tuple) (m : str)
    (e : exn) :
  measure_lookup db t m = Raise e → e = TypeError ∨ e = SqliteError.
Proof.
  destruct t as [[c s] [code|]]; unfold measure_lookup, prefix2, select_measures;
    cbn [mbind result_bind]; [|intros [= <-]; by left].
  destruct (county_health_rankings_table db); cbn [mbind result_bind];
    [done|intros [= <-]; by right].
Qed.

Lemma county_loop_raises (db : store) (m : str) (ts : list county_tuple)
    (acc : list (gmap str str)) (e : exn) :
  county_loop db m ts acc = Raise e → e = TypeError ∨ e = SqliteError.
Proof.
  revert acc. induction ts as [|t ts IH]; intros acc; [done|].
  change (county_loop db m (t :: ts) acc)
    with (measure_lookup db t m ≫= λ found, county_loop db m ts (acc ++ found)).
  destruct (measure_lookup db t m) as [found|e'] eqn:Hl;
    cbn [mbind result_bind].
  - apply IH.
  - intros [= <-]. by apply measure_lookup_raises in Hl.
Qed.

(** The only exception that leaves [get_county_data] is the TypeError. *)
Lemma get_county_data_raises (st : store) (z m : str) (e : exn) :
  get_county_data st z m = Raise e → e = TypeError.
Proof.
  unfold get_county_data, get_db, select_counties.
  destruct (connects st); [|done].
  destruct (zip_county_table st) as [rows|]; [|done].
  cbn [mbind result_bind].
  destruct (remove_dups _) as [|t ts]; [done|].
  destruct (county_loop st m (t :: ts) []) as [res|e'] eqn:Hloop;
    cbn [except_sqlite mbind result_bind]; [done|].
  apply county_loop_raises in Hloop as [-> | ->]; [|done].
  by intros [= <-].
Qed.

(** The validator lets the view run only on two strings: the endpoint never
    leaves the model. *)
Lemma county_data_never_unmodelled (st : store) (req : request) :
  county_data st req ≠ Raise Unmodelled.
Proof.
  unfold county_data, validate_request.
  destruct (is_json req); cbn [negb]; [|done].
  unfold get_json at 1.
  destruct (json_data req) as [data|] eqn:Hd; cbn [mbind result_bind]; [|done].
  destruct data as [| | | | | |data]; try done.
  destruct (eq_str _ _); [done|].
  destruct (data !! lit "zip") as [zv|] eqn:Hz; [|done].
  destruct (zip_ok zv) eqn:Hok; cbn [negb]; [|done].
  destruct (data !! lit "measure_name") as [mv|] eqn:Hm; [|done].
  destruct zv as [| | | |z| |]; try done.
  destruct mv as [| | | |m| |]; cbn [not_in_measures mbind result_bind].
  1-4, 6-7: intros H; discriminate H.
  case_bool_decide as Hin; cbn [mbind result_bind];
    [intros H; discriminate H|].
  unfold county_data_view, get_json. rewrite Hd.
  cbn [mbind result_bind getitem_str]. rewrite Hz, Hm.
  cbn [mbind result_bind].
  destruct (get_county_data st z m) as [[[|d ds]|]|e] eqn:Hg;
    cbn [mbind result_bind]; intros H; [discriminate H..|].
  apply get_county_data_raises in Hg as ->. discriminate H.
Qed.

(** C7: the body of a 200 answer to POST /county_data is an array of
    objects, one per stored row found, keyed by the lower-cased column names;
    every value is a JSON string, namely the text of the stored cell, and the
    empty string for a NULL cell. *)
Theorem success_values_are_strings (st : store) (req : request) :
  status (serve st (POST_county_data req)) = 200 →
  ∃ rows,
    body (serve st (POST_county_data req))
      = Jsonify (JArr ((λ r, JObj (record_of r)) <$> rows))
    ∧ string_records (JArr ((λ r, JObj (record_of r)) <$> rows))
    ∧ Forall (λ r,
        stored_in st r
        ∧ dom (record_of r) = list_to_set description
        ∧ ∀ i col v, description !! i = Some col →
            select_list r !! i = Some v →
            record_of r !! lower col
              = Some (JStr (match v with Some s => s | None => [] end))) rows.
Proof.
  intros Hs. pose proof (serve_ok_from_view st req Hs) as Hv.
  destruct (serve st (POST_county_data req)) as [b code]. simpl in Hs.
  subst code. unfold county_data_view in Hv.
  destruct (get_json req) as [data|]; simpl in Hv; [|done].
  destruct (getitem_str data (lit "zip")) as [z|]; simpl in Hv; [|done].
  destruct (getitem_str data (lit "measure_name")) as [m|]; simpl in Hv;
    [|done].
  destruct (get_county_data st z m) as [[[|d ds]|]|] eqn:Hg; simpl in Hv;
    try done.
  injection Hv as <-.
  apply get_county_data_rows in Hg as (rows & Hrows & Hds).
  exists rows. simpl. split_and!.
  - unfold jsonify_results. rewrite Hds, <- list_fmap_compose. reflexivity.
  - eexists. split; [reflexivity|]. apply Forall_fmap, list.Forall_forall.
    intros r _. exists (record_of r). split; [reflexivity|].
    unfold record_of. apply map_Forall_fmap, map_Forall_lookup.
    intros k x _. by exists x.
  - eapply list.Forall_impl; [exact Hrows|]. intros r Hr. split_and!; [done| |].
    + unfold record_of. rewrite dom_fmap_L. apply row_to_dict_dom.
    + intros i col v Hc Hv. unfold record_of.
      rewrite lookup_fmap, (row_to_dict_lookup r i col v Hc Hv). by destruct v.
Qed.

Lemma success_values_are_strings_witness :
  let req := Samples.lookup_request (lit "10001") (lit "Adult obesity") in
  ∃ rows,
    body (serve Samples.sample_store (POST_county_data req))
      = Jsonify (JArr ((λ r, JObj (record_of r)) <$> rows))
    ∧ string_records (JArr ((λ r, JObj (record_of r)) <$> rows))
    ∧ Forall (λ r,
        stored_in Samples.sample_store r
        ∧ dom (record_of r) = list_to_set description
        ∧ ∀ i col v, description !! i = Some col →
            select_list r !! i = Some v →
            record_of r !! lower col
              = Some (JStr (match v with Some s => s | None => [] end))) rows.
Proof.
  apply (success_values_are_strings Samples.sample_store).
  vm_compute. reflexivity.
Defined.

Lemma select_counties_unknown (st : store) (rows : list zip_county.row)
    (z : str) :
  zip_county_table st = Some rows →
  (∀ zc, zc ∈ rows → zip_county.zip zc ≠ Some z) →
  select_counties st z = Return [].
Proof.
  intros Ht Hz. unfold select_counties. rewrite Ht. clear Ht.
  replace (filter _ rows) with (@nil zip_county.row); [done|].
  symmetry. induction rows as [|zc rows IH]; [done|].
  rewrite filter_cons. case_decide as Hh.
  - apply sql_eq_holds in Hh. destruct (Hz zc); [left|done].
  - apply IH. intros zc' Hin. apply Hz. by right.
Qed.

(** A request that passes the validator is answered by the view on the
    result of [get_county_data]. *)
Lemma serve_valid_request (st : store) (req : request) (z m : str) :
  valid_lookup_request req z m →
  serve st (POST_county_data req) =
    match get_county_data st z m with
    | Return None => StorageUnavailable
    | Return (Some []) => NotFound
    | Return (Some ds) =>
        {| body := Jsonify (jsonify_results ds); status := 200 |}
    | Raise e => finalize (Raise e)
    end.
Proof.
  intros (data & (Hj & Hd & Hc) & Hz & Hok & Hm & Hin).
  unfold serve, county_data, validate_request, get_json.
  rewrite Hj, Hd. cbn [negb mbind result_bind]. rewrite Hc, Hz, Hok.
  cbn [negb]. rewrite Hm. unfold not_in_measures.
  rewrite bool_decide_eq_false_2 by (by intros []). cbn [mbind result_bind].
  unfold county_data_view, get_json. rewrite Hd.
  cbn [mbind result_bind getitem_str]. rewrite Hz, Hm.
  cbn [mbind result_bind].
  by destruct (get_county_data st z m) as [[[|d ds]|]|e].
Qed.

(** C4: a request that passes the validator, for a ZIP with no row in
    [zip_county], is answered NotFound (404), also when the health table
    could not be read; a connection or a zip_county query that fails is
    answered StorageUnavailable (500). *)
Theorem unknown_zip_is_not_found (st : store) (req : request) (z m : str) :
  valid_lookup_request req z m →
  (connects st = true →
   ∀ rows, zip_county_table st = Some rows →
     (∀ zc, zc ∈ rows → zip_county.zip zc ≠ Some z) →
     serve st (POST_county_data req) = NotFound)
  ∧ (connects st = false ∨ zip_county_table st = None →
     serve st (POST_county_data req) = StorageUnavailable)
  ∧ status NotFound = 404 ∧ status StorageUnavailable = 500.
Proof.
  intros Hv. rewrite (serve_valid_request st req z m Hv).
  split_and!; try reflexivity.
  - intros Hc rows Ht Hz. unfold get_county_data, get_db. rewrite Hc.
    by rewrite (select_counties_unknown st rows z Ht Hz).
  - intros Hf. unfold get_county_data, get_db.
    destruct (connects st); [|done].
    destruct Hf as [|Ht]; [done|]. unfold select_counties. by rewrite Ht.
Qed.

Lemma unknown_zip_is_not_found_witness :
  let req := Samples.lookup_request (lit "99999") (lit "Unemployment") in
  serve Samples.sample_store (POST_county_data req) = NotFound.
Proof.
  refine (proj1 (unknown_zip_is_not_found Samples.sample_store _
                   (lit "99999") (lit "Unemployment") _) eq_refl _ eq_refl _).
  - eexists. repeat split.
  - intros zc Hin. apply list_elem_of_In in Hin. simpl in Hin.
    destruct Hin as [<-|[]]. vm_compute. discriminate.
Defined.

End lookup.

(** ** The CSV loader *)

Section loader.
Import Loader.




(** A call either is skipped because an exception is on its way, or
    succeeds and is logged, or fails and raises. *)
Lemma call_cases (db : database) (ev : event) (r : run) :
  (raised r = true ∧ call db ev r = r)
  ∨ (raised r = false
     ∧ (call db ev r = {| log := log r ++ [ev]; raised := false |}
        ∨ call db ev r = {| log := log r; raised := true |})).
Proof.
  unfold call. destruct (raised r); [left; done|right].
  split; [done|]. destruct (db (log r) ev); auto.
Qed.












End loader.

(** ** More on the request validator and the HTTP surface *)

Section http_surface_more.
Import App Spec MoreSpec.

Lemma finalize_raise (e : exn) :
  e ≠ BadRequest → finalize (Raise e) = server_error.
Proof. by destruct e. Qed.

Lemma getitem_str_raises (data : json) (key : str) (e : exn) :
  getitem_str data key = Raise e → e ≠ BadRequest.
Proof.
  unfold getitem_str. destruct data as [| | | | | |d]; try by intros [= <-].
  destruct (d !! key) as [[]|]; by intros [= <-].
Qed.

(** With a body that parses, the view answers 200, 404 or 500. *)
Lemma view_status (st : store) (req : request) (data : json) :
  json_data req = Some data →
  status (finalize (county_data_view st req)) = 200
  ∨ status (finalize (county_data_view st req)) = 404
  ∨ status (finalize (county_data_view st req)) = 500.
Proof.
  intros Hd. unfold county_data_view, get_json. rewrite Hd.
  cbn [mbind result_bind].
  destruct (getitem_str data (lit "zip")) as [z|e] eqn:Hz;
    cbn [mbind result_bind].
  2: { apply getitem_str_raises in Hz. rewrite (finalize_raise e Hz). auto. }
  destruct (getitem_str data (lit "measure_name")) as [m|e] eqn:Hm;
    cbn [mbind result_bind].
  2: { apply getitem_str_raises in Hm. rewrite (finalize_raise e Hm). auto. }
  destruct (get_county_data st z m) as [[[|d ds]|]|e] eqn:Hg;
    cbn [mbind result_bind finalize status]; auto.
  apply get_county_data_raises in Hg as ->. right; right; reflexivity.
Qed.

(** X1: a request the validator rejects (status 400 or 418) is answered
    without consulting the store: the answer is the same on every store. *)
Theorem validation_before_storage (st st' : store) (req : request) :
  status (serve st (POST_county_data req)) = 400
  ∨ status (serve st (POST_county_data req)) = 418 →
  serve st' (POST_county_data req) = serve st (POST_county_data req).
Proof.
  unfold serve, county_data, validate_request.
  destruct (is_json req); cbn [negb]; [|done].
  unfold get_json.
  destruct (json_data req) as [data|] eqn:Hd; cbn [mbind result_bind];
    [|done].
  destruct data as [| | | | | |data]; try done.
  destruct (eq_str _ _); [done|].
  destruct (data !! lit "zip") as [zv|]; [|done].
  destruct (zip_ok zv); cbn [negb]; [|done].
  destruct (data !! lit "measure_name") as [mv|]; [|done].
  destruct (not_in_measures mv) as [[]|e]; cbn [mbind result_bind]; try done.
  intros Hs. exfalso.
  destruct (view_status st req _ Hd) as [H|[H|H]]; rewrite H in Hs;
    by destruct Hs.
Qed.

Lemma validation_before_storage_witness :
  let req := Samples.lookup_request (lit "1234") (lit "Unemployment") in
  serve Samples.sample_store (POST_county_data req)
    = serve Samples.empty_store (POST_county_data req).
Proof.
  apply (validation_before_storage Samples.empty_store Samples.sample_store).
  left. vm_compute. reflexivity.
Defined.

(** X2: the content type is checked before anything else, the teapot
    included: without a JSON content type the answer is the 400 about the
    content type; with it, a body that does not parse is answered by the
    400 handler. *)
Theorem request_shape_errors (st : store) (req : request) :
  (is_json req = false →
   serve st (POST_county_data req) = InvalidContentType)
  ∧ (is_json req = true → json_data req = None →
     serve st (POST_county_data req) = bad_request).
Proof.
  unfold serve, county_data, validate_request, get_json. split.
  - by intros ->.
  - by intros -> ->.
Qed.

Lemma request_shape_errors_witness :
  let teapot := JObj (dict [ (lit "coffee", JStr (lit "teapot")) ]) in
  serve Samples.empty_store
    (POST_county_data {| is_json := false; json_data := Some teapot |})
    = InvalidContentType
  ∧ serve Samples.empty_store
      (POST_county_data {| is_json := true; json_data := None |})
    = bad_request.
Proof.
  split.
  - apply (proj1 (request_shape_errors _ _)). reflexivity.
  - apply (proj2 (request_shape_errors _ _)); reflexivity.
Defined.

(** X3: the required fields are checked in order: a missing zip is
    reported whatever measure_name is, and a missing measure_name is
    reported once the zip is valid. *)
Theorem missing_fields (st : store) (req : request) (data : gmap str json) :
  json_object_request req data →
  (data !! lit "zip" = None →
   serve st (POST_county_data req) = MissingZip)
  ∧ (∀ v, data !! lit "zip" = Some v → zip_ok v = true →
       data !! lit "measure_name" = None →
       serve st (POST_county_data req) = MissingMeasure).
Proof.
  intros (Hj & Hd & Hc).
  unfold serve, county_data, validate_request, get_json.
  rewrite Hj, Hd. cbn [negb mbind result_bind]. rewrite Hc. split.
  - by intros ->.
  - intros v -> -> ->. reflexivity.
Qed.

Lemma missing_fields_witness :
  serve Samples.empty_store
    (POST_county_data (Samples.post [ (lit "measure_name", JArr []) ]))
    = MissingZip
  ∧ serve Samples.empty_store
      (POST_county_data (Samples.post [ (lit "zip", JStr (lit "10001")) ]))
    = MissingMeasure.
Proof.
  split.
  - refine (proj1 (missing_fields _ _
                     (dict [ (lit "measure_name", JArr []) ]) _) _);
      [repeat split|reflexivity].
  - refine (proj2 (missing_fields _ _
                     (dict [ (lit "zip", JStr (lit "10001")) ]) _)
                  (JStr (lit "10001")) _ _ _);
      [repeat split|reflexivity..].
Defined.

(** X4: the endpoints answer with one of five status codes, and a 200 of
    POST /county_data carries a JSON array that is not empty. *)
Theorem status_codes (st : store) (r : http_request) :
  (status (serve st r) = 200 ∨ status (serve st r) = 400
   ∨ status (serve st r) = 404 ∨ status (serve st r) = 418
   ∨ status (serve st r) = 500)
  ∧ (∀ req, r = POST_county_data req → status (serve st r) = 200 →
       ∃ j js, body (serve st r) = Jsonify (JArr (j :: js))).
Proof.
  split.
  - destruct r as [req| |]; [|left; reflexivity|right; right; left; reflexivity].
    unfold serve, county_data, validate_request.
    destruct (is_json req); cbn [negb]; [|right; left; reflexivity].
    unfold get_json.
    destruct (json_data req) as [data|] eqn:Hd; cbn [mbind result_bind];
      [|right; left; reflexivity].
    destruct data as [| | | | | |data]; try (right; right; right; right; reflexivity).
    destruct (eq_str _ _); [right; right; right; left; reflexivity|].
    destruct (data !! lit "zip") as [zv|]; [|right; left; reflexivity].
    destruct (zip_ok zv); cbn [negb]; [|right; left; reflexivity].
    destruct (data !! lit "measure_name") as [mv|]; [|right; left; reflexivity].
    destruct (not_in_measures mv) as [[]|e]; cbn [mbind result_bind];
      [right; left; reflexivity| |
       destruct e; first [right; left; reflexivity
                         |right; right; right; right; reflexivity]].
    destruct (view_status st req _ Hd) as [H|[H|H]]; rewrite H; auto.
  - intros req -> Hs. pose proof (serve_ok_from_view st req Hs) as Hv.
    destruct (serve st (POST_county_data req)) as [b code].
    cbn [status body] in *. subst code. unfold county_data_view in Hv.
    destruct (get_json req) as [data|]; cbn [mbind result_bind] in Hv;
      [|done].
    destruct (getitem_str data (lit "zip")) as [z|];
      cbn [mbind result_bind] in Hv; [|done].
    destruct (getitem_str data (lit "measure_name")) as [m|];
      cbn [mbind result_bind] in Hv; [|done].
    destruct (get_county_data st z m) as [[[|d ds]|]|];
      cbn [mbind result_bind] in Hv; try done.
    injection Hv as <-. unfold jsonify_results. rewrite fmap_cons.
    by do 2 eexists.
Qed.

Lemma status_codes_witness :
  let req := Samples.lookup_request (lit "10001") (lit "Adult obesity") in
  ∃ j js, body (serve Samples.sample_store (POST_county_data req))
            = Jsonify (JArr (j :: js)).
Proof.
  apply (proj2 (status_codes Samples.sample_store _) _ eq_refl).
  vm_compute. reflexivity.
Defined.

(** X5: a measure_name that can be hashed and is not a member of the
    catalog (a string outside it or with another case, a number, a boolean,
    null) is answered with InvalidMeasure, whose payload is the catalog in
    ascending order. *)
Theorem invalid_measure_rejected (st : store) (req : request)
    (data : gmap str json) (z m : json) :
  json_object_request req data →
  data !! lit "zip" = Some z → zip_ok z = true →
  data !! lit "measure_name" = Some m →
  hashable m = true → ¬ in_catalog m →
  serve st (POST_county_data req) = InvalidMeasure
  ∧ InvalidMeasure =
      {| body := Jsonify (JObj
           {[ lit "error" := JStr (lit "Invalid measure_name");
              lit "valid_measures" := JArr (JStr <$> catalog_ascending) ]});
         status := 400 |}.
Proof.
  intros Hreq Hz Hok Hm Hh Hc.
  apply (invalid_measure_payload st req data z m); try done.
  destruct m as [| | | |s| |]; try done.
  unfold not_in_measures. rewrite bool_decide_eq_true_2; [done|].
  intros Hin. apply Hc. exists s. split; [reflexivity|exact Hin].
Qed.

Lemma invalid_measure_rejected_witness :
  let req := Samples.lookup_request (lit "10001") (lit "adult obesity") in
  serve Samples.empty_store (POST_county_data req) = InvalidMeasure.
Proof.
  refine (proj1 (invalid_measure_rejected Samples.empty_store _
            (dict [ (lit "zip", JStr (lit "10001"));
                    (lit "measure_name", JStr (lit "adult obesity")) ])
            (JStr (lit "10001")) (JStr (lit "adult obesity"))
            _ eq_refl eq_refl eq_refl eq_refl _)).
  - repeat split.
  - intros (s & [= <-] & Hin). vm_compute in Hin. discriminate Hin.
Defined.

End http_surface_more.

(** ** More on the county resolver and the lookup as a whole *)

Section lookup_more.
Import App Spec MoreSpec.

(** The first query on a readable table. *)
Lemma select_counties_spec (st : store) (rows : list zip_county.row)
    (z : str) :
  zip_county_table st = Some rows →
  ∃ ts, select_counties st z = Return ts
    ∧ NoDup ts
    ∧ ∀ t, t ∈ ts ↔
        ∃ zc, zc ∈ rows ∧ zip_county.zip zc = Some z ∧ t = tuple_of zc.
Proof.
  intros Ht. unfold select_counties. rewrite Ht. eexists.
  split; [reflexivity|]. split; [apply NoDup_remove_dups|].
  intros t. rewrite elem_of_remove_dups, list_elem_of_fmap.
  split.
  - intros (zc & -> & Hin). apply list_elem_of_filter in Hin as [Hz Hin].
    apply sql_eq_holds in Hz. by exists zc.
  - intros (zc & Hin & Hz & ->). exists zc. split; [reflexivity|].
    apply list_elem_of_filter. split; [|done]. by apply sql_eq_holds.
Qed.



(** The loop returns what it had, followed by the records of each county
    tuple in turn. *)
Lemma county_loop_concat (db : store) (m : str) (ts : list county_tuple)
    (acc res : list (gmap str str)) :
  county_loop db m ts acc = Return res ↔
  ∃ dss, Forall2 (λ t ds, measure_lookup db t m = Return ds) ts dss
         ∧ res = acc ++ concat dss.
Proof.
  revert acc. induction ts as [|t ts IH]; intros acc.
  - split.
    + intros [= <-]. exists []. split; [constructor|by rewrite app_nil_r].
    + intros (dss & Hf & ->). apply Forall2_nil_inv_l in Hf as ->.
      cbn [concat]. by rewrite app_nil_r.
  - change (county_loop db m (t :: ts) acc)
      with (measure_lookup db t m
              ≫= λ found, county_loop db m ts (acc ++ found)).
    split.
    + destruct (measure_lookup db t m) as [found|] eqn:Hl; [|done].
      cbn [mbind result_bind]. intros (dss & Hf & ->)%IH.
      exists (found :: dss). split; [by constructor|].
      simpl. by rewrite app_assoc.
    + intros (dss & Hf & ->).
      apply Forall2_cons_inv_l in Hf as (found & dss' & Hl & Hf & ->).
      rewrite Hl. cbn [mbind result_bind]. apply IH.
      exists dss'. split; [done|]. simpl. by rewrite app_assoc.
Qed.

(** [get_county_data] on an open connection. *)
Lemma get_county_data_concat_iff (st : store) (z m : str)
    (ds : list (gmap str str)) :
  connects st = true →
  (get_county_data st z m = Return (Some ds) ↔
   ∃ ts dss, select_counties st z = Return ts
     ∧ Forall2 (λ t d, measure_lookup st t m = Return d) ts dss
     ∧ ds = concat dss).
Proof.
  intros Hc. unfold get_county_data, get_db. rewrite Hc. split.
  - destruct (select_counties st z) as [[|t ts]|e];
      cbn [except_sqlite mbind result_bind]; [| |by destruct e].
    + intros [= <-]. exists [], []. split_and!; [done|constructor|done].
    + destruct (county_loop st m (t :: ts) []) as [res|e] eqn:Hloop;
        cbn [except_sqlite mbind result_bind]; [|by destruct e].
      intros [= <-]. apply county_loop_concat in Hloop as (dss & Hf & ->).
      by exists (t :: ts), dss.
  - intros (ts & dss & -> & Hf & ->). cbn [mbind result_bind].
    destruct ts as [|t ts].
    + apply Forall2_nil_inv_l in Hf as ->. reflexivity.
    + rewrite (proj2 (county_loop_concat st m (t :: ts) [] (concat dss)));
        [reflexivity|]. by exists dss.
Qed.



(** On a readable health table the loop stops with TypeError as soon as a
    county tuple has no county code. *)
Lemma county_loop_null_code (db : store) (hrows : list county_health_rankings.row)
    (m : str) (ts : list county_tuple) (acc : list (gmap str str)) :
  county_health_rankings_table db = Some hrows →
  (∃ t, t ∈ ts ∧ t.2 = None) →
  county_loop db m ts acc = Raise TypeError.
Proof.
  intros Ht. revert acc. induction ts as [|[[c s] cc] ts IH]; intros acc.
  - intros (t & Hin & _). by apply elem_of_nil in Hin.
  - intros (t & Hin & Hnull).
    change (county_loop db m ((c, s, cc) :: ts) acc)
      with (measure_lookup db (c, s, cc) m
              ≫= λ found, county_loop db m ts (acc ++ found)).
    destruct cc as [code|]; [|reflexivity].
    rewrite (measure_lookup_eq db hrows c s code m Ht).
    cbn [mbind result_bind]. apply IH.
    apply elem_of_cons in Hin as [->|Hin]; [done|]. by exists t.
Qed.

(** X8: a ZIP one of whose rows has a NULL county code (an empty cell of
    the loaded CSV) breaks the lookup: on a readable store the request is
    answered by the generic 500 handler, because slicing None raises a
    TypeError that nothing catches. *)
Theorem null_county_code_is_server_error (st : store) (req : request)
    (z m : str) (zrows : list zip_county.row)
    (hrows : list county_health_rankings.row) :
  valid_lookup_request req z m →
  connects st = true →
  zip_county_table st = Some zrows →
  county_health_rankings_table st = Some hrows →
  (∃ zc, zc ∈ zrows ∧ zip_county.zip zc = Some z
         ∧ zip_county.county_code zc = None) →
  get_county_data st z m = Raise TypeError
  ∧ serve st (POST_county_data req) = server_error.
Proof.
  intros Hv Hc Hz Hh (zc & Hin & Hzip & Hnull).
  assert (get_county_data st z m = Raise TypeError) as Hg.
  { destruct (select_counties_spec st zrows z Hz) as (ts & Hs & _ & Hts).
    unfold get_county_data, get_db. rewrite Hc, Hs. cbn [mbind result_bind].
    assert (tuple_of zc ∈ ts) as Ht by (apply Hts; by exists zc).
    destruct ts as [|t ts]; [by apply elem_of_nil in Ht|].
    rewrite (county_loop_null_code st hrows m (t :: ts) [] Hh); [done|].
    exists (tuple_of zc). by split. }
  split; [done|]. by rewrite (serve_valid_request st req z m Hv), Hg.
Qed.

Lemma null_county_code_is_server_error_witness :
  serve MoreSamples.null_code_store
    (POST_county_data (Samples.lookup_request (lit "10001")
                         (lit "Adult obesity")))
    = server_error.
Proof.
  refine (proj2 (null_county_code_is_server_error MoreSamples.null_code_store
            _ (lit "10001") (lit "Adult obesity") _ _ _ eq_refl eq_refl
            eq_refl _)).
  - eexists. repeat split.
  - eexists. split; [left|split; reflexivity].
Defined.

(** X9: when the ZIP resolves to counties that all have a county code but
    the health table cannot be read, the answer is StorageUnavailable (500),
    not NotFound. *)
Theorem health_table_fault_is_storage_unavailable (st : store)
    (req : request) (z m : str) (zrows : list zip_county.row) :
  valid_lookup_request req z m →
  connects st = true →
  zip_county_table st = Some zrows →
  county_health_rankings_table st = None →
  (∃ zc, zc ∈ zrows ∧ zip_county.zip zc = Some z) →
  (∀ zc, zc ∈ zrows → zip_county.zip zc = Some z →
     is_Some (zip_county.county_code zc)) →
  serve st (POST_county_data req) = StorageUnavailable.
Proof.
  intros Hv Hc Hz Hh (zc & Hin & Hzip) Hcodes.
  rewrite (serve_valid_request st req z m Hv).
  destruct (select_counties_spec st zrows z Hz) as (ts & Hs & _ & Hts).
  unfold get_county_data, get_db. rewrite Hc, Hs. cbn [mbind result_bind].
  assert (tuple_of zc ∈ ts) as Ht by (apply Hts; by exists zc).
  destruct ts as [|[[c s] cc] ts]; [by apply elem_of_nil in Ht|].
  assert (is_Some cc) as [code ->].
  { destruct (proj1 (Hts (c, s, cc))) as (zc' & Hin' & Hz' & Heq); [left|].
    injection Heq as _ _ ->. by apply Hcodes. }
  change (county_loop st m ((c, s, Some code) :: ts) [])
    with (measure_lookup st (c, s, Some code) m
            ≫= λ found, county_loop st m ts ([] ++ found)).
  unfold measure_lookup, prefix2, select_measures. rewrite Hh. reflexivity.
Qed.

Lemma health_table_fault_is_storage_unavailable_witness :
  serve MoreSamples.no_health_store
    (POST_county_data (Samples.lookup_request (lit "10001")
                         (lit "Adult obesity")))
    = StorageUnavailable.
Proof.
  refine (health_table_fault_is_storage_unavailable MoreSamples.no_health_store
            _ (lit "10001") (lit "Adult obesity") _ _ eq_refl eq_refl
            eq_refl _ _).
  - eexists. repeat split.
  - eexists. split; [left|reflexivity].
  - intros zc Hin _. apply list_elem_of_In in Hin. simpl in Hin.
    destruct Hin as [<-|[]]. by eexists.
Defined.

Lemma measure_lookup_records (db : store)
    (hrows : list county_health_rankings.row) (m : str) (t : county_tuple) :
  county_health_rankings_table db = Some hrows →
  is_Some t.2 →
  measure_lookup db t m = Return (records_of hrows m t).
Proof.
  destruct t as [[c s] cc]. intros Ht [code Hcode]. cbn [snd] in Hcode.
  subst cc. exact (measure_lookup_eq db hrows c s code m Ht).
Qed.

Lemma records_of_nil (hrows : list county_health_rankings.row) (m : str)
    (t : county_tuple) :
  records_of hrows m t = [] ↔
  ∀ r, r ∈ hrows →
    ¬ holds (where_clause t.1.1 t.1.2 (take 2 <$> t.2) (Some m) r).
Proof.
  unfold records_of. split.
  - intros Hnil%fmap_nil_inv r Hin Hr.
    assert (r ∈ merge_sort year_span_desc
              (filter (λ r, holds (where_clause t.1.1 t.1.2 (take 2 <$> t.2)
                                      (Some m) r)) hrows)) as Hmem.
    { rewrite merge_sort_Permutation. by apply list_elem_of_filter. }
    rewrite Hnil in Hmem. by apply elem_of_nil in Hmem.
  - intros Hno. rewrite (elem_of_nil_inv (merge_sort _ _)); [done|].
    intros r. rewrite merge_sort_Permutation, list_elem_of_filter.
    intros [Hr Hin]. by apply (Hno r).
Qed.

Lemma concat_fmap_nil {A B} (f : A → list B) (l : list A) :
  concat (f <$> l) = [] ↔ ∀ x, x ∈ l → f x = [].
Proof.
  induction l as [|x l IH]; simpl.
  - split; [|done]. intros _ y Hy. by apply elem_of_nil in Hy.
  - split.
    + intros [Hx Hl]%app_eq_nil y [->|Hy]%elem_of_cons; [done|].
      by apply IH.
    + intros H. rewrite (H x) by left. apply IH. intros y Hy. apply H.
      by right.
Qed.

(** X10: on a readable store whose rows for the ZIP all have a county code,
    a request that passes the validator is answered 200 exactly when some
    row of the health table is selected by some county row of the ZIP, and
    NotFound (404) otherwise. *)
Theorem lookup_found_iff (st : store) (req : request) (z m : str)
    (zrows : list zip_county.row) (hrows : list county_health_rankings.row) :
  valid_lookup_request req z m →
  connects st = true →
  zip_county_table st = Some zrows →
  county_health_rankings_table st = Some hrows →
  (∀ zc, zc ∈ zrows → zip_county.zip zc = Some z →
     is_Some (zip_county.county_code zc)) →
  ((∃ zc r, zc ∈ zrows ∧ zip_county.zip zc = Some z ∧ r ∈ hrows
            ∧ selects zc m r) →
   status (serve st (POST_county_data req)) = 200)
  ∧ (¬ (∃ zc r, zc ∈ zrows ∧ zip_county.zip zc = Some z ∧ r ∈ hrows
               ∧ selects zc m r) →
     serve st (POST_county_data req) = NotFound).
Proof.
  intros Hv Hc Hz Hh Hcodes.
  rewrite (serve_valid_request st req z m Hv).
  destruct (select_counties_spec st zrows z Hz) as (ts & Hs & _ & Hts).
  assert (get_county_data st z m
          = Return (Some (concat (records_of hrows m <$> ts)))) as ->.
  { apply get_county_data_concat_iff; [done|].
    exists ts, (records_of hrows m <$> ts). split_and!; [done| |done].
    apply Forall2_fmap_r, Forall_Forall2_diag, list.Forall_forall.
    intros t (zc & Hin & Hzip & ->)%Hts.
    apply measure_lookup_records; [done|]. by apply Hcodes. }
  split.
  - intros (zc & r & Hin & Hzip & Hr & Hsel).
    destruct (concat (records_of hrows m <$> ts)) as [|d ds] eqn:Hnil;
      [|reflexivity].
    exfalso. rewrite concat_fmap_nil in Hnil.
    assert (tuple_of zc ∈ ts) as Ht by (apply Hts; by exists zc).
    apply Hnil in Ht. rewrite records_of_nil in Ht. by apply (Ht r).
  - intros Hnone.
    rewrite (proj2 (concat_fmap_nil (records_of hrows m) ts)); [done|].
    intros t (zc & Hin & Hzip & ->)%Hts. apply records_of_nil.
    intros r Hr Hsel. apply Hnone. by exists zc, r.
Qed.

Lemma lookup_found_iff_witness :
  status (serve Samples.sample_store
            (POST_county_data (Samples.lookup_request (lit "10001")
                                 (lit "Adult obesity")))) = 200.
Proof.
  refine (proj1 (lookup_found_iff Samples.sample_store _ (lit "10001")
            (lit "Adult obesity") _ Samples.health_rows _ eq_refl eq_refl
            eq_refl _) _).
  - eexists. repeat split.
  - intros zc Hin _. apply list_elem_of_In in Hin. simpl in Hin.
    destruct Hin as [<-|[]]. by eexists.
  - eexists _, (Samples.obesity (Some (lit "NY")) (Some (lit "36"))
                  (Some (lit "2014-2018"))).
    split_and!; [left|reflexivity|left|vm_compute; reflexivity].
Defined.

End lookup_more.

(** ** The schema inspector and the measure names of the store *)

Section inspector.
Import App Spec Inspector.

#[local] Instance cell_le_total : Total cell_le.
Proof. intros a b. apply cell_leb_total. Qed.

#[local] Instance cell_le_trans : Transitive cell_le.
Proof. intros a b c. apply cell_leb_trans. Qed.

Lemma names_where_spec (r : county_health_rankings.row) :
  holds (names_where r) ↔
  ∃ s, county_health_rankings.measure_name r = Some s ∧ s ≠ [].
Proof.
  unfold holds, names_where, sql_is_not_null, sql_not.
  destruct (county_health_rankings.measure_name r) as [s|]; simpl;
    repeat case_bool_decide; simpl; naive_solver.
Qed.

(** X11: on a readable health table [get_valid_measures] returns every
    measure name of the table that is neither NULL nor empty, each once, in
    ascending order; on a failed connection or an unreadable table it
    returns None. *)
Theorem get_valid_measures_spec (st : store) :
  (∀ hrows, connects st = true →
     county_health_rankings_table st = Some hrows →
     ∃ ms, get_valid_measures st = Return (Some ms)
       ∧ NoDup ms ∧ StronglySorted cell_le ms
       ∧ ∀ c, c ∈ ms ↔
           ∃ s r, c = Some s ∧ s ≠ [] ∧ r ∈ hrows
                  ∧ county_health_rankings.measure_name r = Some s)
  ∧ (connects st = false ∨ county_health_rankings_table st = None →
     get_valid_measures st = Return None).
Proof.
  unfold get_valid_measures, get_db, select_measure_names. split.
  - intros hrows -> ->. eexists. split; [reflexivity|]. split_and!.
    + rewrite merge_sort_Permutation. apply NoDup_remove_dups.
    + apply StronglySorted_merge_sort; apply _.
    + intros c. rewrite merge_sort_Permutation, elem_of_remove_dups.
      rewrite list_elem_of_fmap. split.
      * intros (r & -> & [Hr Hin]%list_elem_of_filter).
        apply names_where_spec in Hr as (s & Hs & Hne). by exists s, r.
      * intros (s & r & -> & Hne & Hin & Hs). exists r.
        split; [done|]. apply list_elem_of_filter. split; [|done].
        apply names_where_spec. by exists s.
  - destruct (connects st); [|done].
    intros [H|H]; [done|by rewrite H].
Qed.

Lemma get_valid_measures_spec_witness :
  ∃ ms, get_valid_measures Samples.sample_store = Return (Some ms)
    ∧ NoDup ms ∧ StronglySorted cell_le ms
    ∧ ∀ c, c ∈ ms ↔
        ∃ s r, c = Some s ∧ s ≠ [] ∧ r ∈ Samples.health_rows
               ∧ county_health_rankings.measure_name r = Some s.
Proof.
  apply (proj1 (get_valid_measures_spec Samples.sample_store)); reflexivity.
Defined.

(** The loop over the tables: every table gets its entry, the others keep
    theirs. *)
Lemma tables_loop_spec (sc : schema) (tables : list str) :
  (∀ n, n ∈ tables → is_Some (pragma_table_info sc n)) →
  ∀ acc : gmap str table_entry,
  ∃ ti, tables_loop sc tables acc = Return ti
    ∧ dom ti = dom acc ∪ list_to_set tables
    ∧ (∀ n cols, n ∈ tables → pragma_table_info sc n = Some cols →
         ti !! n = Some {| columns := cols.*1; types := dict cols |})
    ∧ (∀ n, n ∉ tables → ti !! n = acc !! n).
Proof.
  induction tables as [|t tables IH]; intros Hall acc.
  - exists acc. split_and!; [done|set_solver| |done].
    intros n cols Hin. by apply elem_of_nil in Hin.
  - destruct (Hall t) as [cols Hcols]; [left|].
    cbn [tables_loop]. rewrite Hcols.
    destruct (IH (λ n Hn, Hall n (list_elem_of_further _ _ _ Hn))
                (<[t := {| columns := cols.*1; types := dict cols |}]> acc))
      as (ti & -> & Hdom & Hin & Hout).
    exists ti. split_and!; [done| | |].
    + rewrite Hdom, dom_insert_L. set_solver.
    + intros n cols' [->|Hn]%elem_of_cons Hc; [|by apply Hin].
      destruct (decide (t ∈ tables)) as [Ht|Ht]; [by apply Hin|].
      rewrite (Hout t Ht), lookup_insert_eq. congruence.
    + intros n Hn. apply not_elem_of_cons in Hn as [Hne Hn].
      by rewrite (Hout n Hn), lookup_insert_ne.
Qed.

Lemma tables_loop_fault (sc : schema) (tables : list str)
    (acc : gmap str table_entry) :
  (∃ n, n ∈ tables ∧ pragma_table_info sc n = None) →
  tables_loop sc tables acc = Raise SqliteError.
Proof.
  revert acc. induction tables as [|t tables IH]; intros acc (n & Hin & Hn).
  - by apply elem_of_nil in Hin.
  - cbn [tables_loop]. destruct (pragma_table_info sc t) as [cols|] eqn:Ht;
      [|done].
    apply IH. exists n. split; [|done].
    apply elem_of_cons in Hin as [->|Hin]; [congruence|done].
Qed.

(** X12: when the connection opens and every schema query succeeds,
    GET /tables answers 200 with one entry per table of [sqlite_master]
    (none for an empty database), each holding the column names in the
    order of the PRAGMA rows and the declared type of every column. *)
Theorem get_tables_lists_every_table (st : store) (sc : schema)
    (names : list str) :
  connects st = true →
  sqlite_master sc = Some names →
  (∀ n, n ∈ names → is_Some (pragma_table_info sc n)) →
  ∃ ti, get_tables st sc
          = Return {| body := Jsonify (JObj (entry_json <$> ti));
                      status := 200 |}
    ∧ dom ti = list_to_set names
    ∧ ∀ n cols, n ∈ names → pragma_table_info sc n = Some cols →
        ti !! n = Some {| columns := cols.*1; types := dict cols |}.
Proof.
  intros Hc Hm Hall.
  destruct (tables_loop_spec sc names Hall ∅) as (ti & Hloop & Hdom & Hin & _).
  exists ti. split_and!.
  - unfold get_tables, get_table_info, get_db. rewrite Hc, Hm, Hloop.
    reflexivity.
  - rewrite Hdom, dom_empty_L. apply (left_id_L ∅ (∪)).
  - exact Hin.
Qed.

Lemma get_tables_lists_every_table_witness :
  ∃ ti, get_tables Samples.sample_store MoreSamples.sample_schema
          = Return {| body := Jsonify (JObj (entry_json <$> ti));
                      status := 200 |}
    ∧ dom ti = list_to_set [lit "zip_county"; lit "county_health_rankings"]
    ∧ ∀ n cols, n ∈ [lit "zip_county"; lit "county_health_rankings"] →
        pragma_table_info MoreSamples.sample_schema n = Some cols →
        ti !! n = Some {| columns := cols.*1; types := dict cols |}.
Proof.
  apply (get_tables_lists_every_table Samples.sample_store
           MoreSamples.sample_schema); [reflexivity..|].
  intros n Hn. apply list_elem_of_In in Hn. simpl in Hn.
  destruct Hn as [<-|[<-|[]]]; vm_compute; by eexists.
Defined.

(** X13: when the connection fails, the query on [sqlite_master] fails, or
    the PRAGMA of one of the tables fails, GET /tables answers the 500
    "Database error occurred" and no table at all. *)
Theorem get_tables_fault (st : store) (sc : schema) :
  connects st = false
  ∨ sqlite_master sc = None
  ∨ (∃ names n, sqlite_master sc = Some names ∧ n ∈ names
                ∧ pragma_table_info sc n = None) →
  get_tables st sc = Return StorageUnavailable.
Proof.
  unfold get_tables, get_table_info, get_db.
  intros [->|H]; [done|]. destruct (connects st); [|done].
  destruct H as [->|(names & n & -> & Hin & Hn)]; [done|].
  rewrite (tables_loop_fault sc names ∅); [done|]. by exists n.
Qed.

Lemma get_tables_fault_witness :
  get_tables Samples.sample_store
    {| sqlite_master := Some [lit "zip_county"; lit "odd name"];
       pragma_table_info := pragma_table_info MoreSamples.sample_schema |}
    = Return StorageUnavailable.
Proof.
  apply get_tables_fault. right; right.
  exists [lit "zip_county"; lit "odd name"], (lit "odd name").
  split_and!; [reflexivity|by right; left|vm_compute; reflexivity].
Defined.

End inspector.

(** ** More on the CSV loader *)

Section loader_more.
Import Loader LoaderSpec.

(** X14: called with anything but two arguments, the loader exits with
    status 1 without opening the database. *)
Theorem usage_error (argv : list str) (fs : str → option csv_file)
    (db : database) :
  length argv ≠ 3%nat →
  main argv fs db = {| trace := []; exit_status := 1 |}.
Proof.
  intros Hlen. unfold main.
  by destruct argv as [|prog [|name [|csv [|? ?]]]].
Qed.

Lemma usage_error_witness :
  main [lit "csv_to_sqlite.py"; lit "data.db"]
       (λ _, Some MoreSamples.small_file) MoreSamples.healthy
    = {| trace := []; exit_status := 1 |}.
Proof. apply usage_error. simpl. lia. Defined.

Lemma extends_refl (r : run) : extends r r.
Proof. exists []. by rewrite app_nil_r. Qed.

Lemma extends_trans (r1 r2 r3 : run) :
  extends r1 r2 → extends r2 r3 → extends r1 r3.
Proof.
  intros (e1 & H1 & F1) (e2 & H2 & F2). exists (e1 ++ e2).
  split; [by rewrite H2, H1, app_assoc|by apply list.Forall_app].
Qed.

Lemma extends_raise (r : run) :
  extends r {| log := log r; raised := true |}.
Proof. exists []. by rewrite app_nil_r. Qed.

Lemma call_extends (db : database) (ev : event) (r : run) :
  body_event ev = true → extends r (call db ev r).
Proof.
  intros Hev.
  destruct (call_cases db ev r) as [[_ ->]|[_ [-> | ->]]];
    [apply extends_refl| |apply extends_raise].
  exists [ev]. split; [done|by constructor].
Qed.

Lemma create_indices_extends (db : database) (table_name : str)
    (headers : list str) (r : run) :
  extends r (create_indices db table_name headers r).
Proof.
  unfold create_indices. revert r.
  induction headers as [|col headers IH]; intros r; simpl.
  - apply extends_refl.
  - eapply extends_trans; [|apply IH].
    case_bool_decide; [by apply call_extends|apply extends_refl].
Qed.

Lemma insert_rows_extends (db : database) (sql : str)
    (rows : list (list str)) :
  ∀ (batch : list (list cell)) (r : run),
  extends r (insert_rows db sql rows batch r).1.
Proof.
  induction rows as [|row rows IH]; intros batch r; cbn [insert_rows].
  - apply extends_refl.
  - case_bool_decide; [|apply IH].
    destruct (raised (call db _ r)) eqn:Hr; cbn [fst].
    + by apply call_extends.
    + eapply extends_trans; [|apply IH]. by apply call_extends.
Qed.

Lemma load_extends (db : database) (table_name : str)
    (file : option csv_file) (r : run) :
  extends r (load db table_name file r).
Proof.
  unfold load. destruct file as [f|]; [|apply extends_raise].
  destruct (records f) as [|header rows]; [apply extends_raise|].
  set (headers := (λ h, strip (lower h)) <$> header).
  set (r1 := call db (Execute _) r).
  set (r2 := call db (Execute _) r1).
  set (r3 := create_indices db table_name headers r2).
  set (sql := _ ++ _ ++ _ ++ _ ++ _).
  assert (extends r r3) as H3.
  { apply (extends_trans r r1 r3); [by apply call_extends|].
    apply (extends_trans r1 r2 r3); [by apply call_extends|].
    apply create_indices_extends. }
  destruct (raised r3); [done|].
  pose proof (insert_rows_extends db sql rows [] r3) as H4.
  destruct (insert_rows db sql rows [] r3) as [r4 batch]. cbn [fst] in H4.
  assert (extends r r4) as H4' by (by eapply extends_trans).
  destruct (raised r4); [done|].
  destruct (read_fails f).
  { eapply extends_trans; [exact H4'|apply extends_raise]. }
  eapply extends_trans; [exact H4'|].
  eapply extends_trans; [|apply call_extends; reflexivity].
  destruct batch; [apply extends_refl|by apply call_extends].
Qed.

(** X15: once the connection is open, every run closes it, exactly once
    and as its last call: after the calls of the [try] block the trace ends
    with [close] when the exit status is 0, and with [rollback] and [close]
    when it is 1; no other status occurs. *)
Theorem connection_always_closed (prog database_name csv_file_name : str)
    (fs : str → option csv_file) (db : database) :
  db [] (Connect database_name) = true →
  ∃ evs,
    trace (main [prog; database_name; csv_file_name] fs db)
      = Connect database_name :: evs
          ++ ending (exit_status
                       (main [prog; database_name; csv_file_name] fs db))
    ∧ Forall (λ ev, body_event ev = true) evs
    ∧ (exit_status (main [prog; database_name; csv_file_name] fs db) = 0
       ∨ exit_status (main [prog; database_name; csv_file_name] fs db) = 1).
Proof.
  intros Hdb. unfold main.
  assert (call db (Connect database_name) {| log := []; raised := false |}
          = {| log := [Connect database_name]; raised := false |}) as ->.
  { unfold call. cbn [raised log]. by rewrite Hdb. }
  cbn [raised log].
  destruct (load_extends db (splitext_root (basename csv_file_name))
              (fs csv_file_name)
              {| log := [Connect database_name]; raised := false |})
    as (evs & Hlog & Hevs).
  cbn [log] in Hlog. exists evs.
  destruct (raised (load _ _ _ _)); cbn [trace exit_status];
    rewrite Hlog; (split_and!; [reflexivity|done|auto]).
Qed.

Lemma connection_always_closed_witness :
  ∃ evs,
    trace (main MoreSamples.small_argv (λ _, None) MoreSamples.healthy)
      = Connect (lit "data.db") :: evs
          ++ ending (exit_status
                       (main MoreSamples.small_argv (λ _, None)
                          MoreSamples.healthy))
    ∧ Forall (λ ev, body_event ev = true) evs
    ∧ (exit_status (main MoreSamples.small_argv (λ _, None)
                      MoreSamples.healthy) = 0
       ∨ exit_status (main MoreSamples.small_argv (λ _, None)
                        MoreSamples.healthy) = 1).
Proof.
  apply (connection_always_closed (lit "csv_to_sqlite.py") (lit "data.db")
           (lit "in/zip_county.csv") (λ _, None) MoreSamples.healthy).
  reflexivity.
Defined.







(** The statements of the sample run, written out. *)
Example small_file_trace :
  trace (main MoreSamples.small_argv (λ _, Some MoreSamples.small_file)
           MoreSamples.healthy)
  = [ Connect (lit "data.db");
      Execute (lit "DROP TABLE IF EXISTS zip_county");
      Execute (lit "CREATE TABLE zip_county (zip TEXT, note TEXT)");
      Execute (lit "CREATE INDEX idx_zip_county_zip ON zip_county(zip)");
      ExecuteMany (lit "INSERT INTO zip_county VALUES (?, ?)")
        [ [Some (lit "02139"); None];
          [Some (lit "10001"); Some (lit " x ")] ];
      Commit; Close ].
Proof. vm_compute. reflexivity. Qed.

Lemma blank_Forall (s : str) :
  blank s = true ↔ Forall (λ c, isspace_char c = true) s.
Proof.
  unfold blank. induction s as [|c s IH]; cbn [forallb].
  - split; [constructor|done].
  - rewrite andb_true_iff, IH, list.Forall_cons. done.
Qed.

Lemma lstrip_nil_iff (s : str) : lstrip s = [] ↔ blank s = true.
Proof.
  unfold blank. induction s as [|c s IH]; cbn [forallb lstrip]; [done|].
  destruct (isspace_char c); cbn [andb]; [done|]. split; discriminate.
Qed.

Lemma lstrip_blank (s : str) : blank (lstrip s) = true → lstrip s = [].
Proof.
  unfold blank. induction s as [|c s IH]; cbn [forallb lstrip]; [done|].
  destruct (isspace_char c) eqn:Hc; [done|]. cbn [forallb].
  by rewrite Hc.
Qed.

Lemma strip_nil_iff (s : str) : strip s = [] ↔ blank s = true.
Proof.
  unfold strip. split.
  - intros H. apply (f_equal reverse) in H.
    rewrite list.reverse_involutive, reverse_nil in H.
    apply lstrip_nil_iff in H. rewrite blank_Forall in H.
    apply Forall_reverse in H. rewrite list.reverse_involutive in H.
    apply blank_Forall, lstrip_blank in H. by apply lstrip_nil_iff.
  - intros H. apply lstrip_nil_iff in H. by rewrite H.
Qed.

(** X17: a cell of a record is stored as NULL exactly when it is empty or
    consists of white space only; any other cell is stored as it was read,
    its surrounding white space included. *)
Theorem blank_cells_become_null (row : list str) :
  processed_row row = (λ val, if blank val then None else Some val) <$> row.
Proof.
  unfold processed_row. apply list_fmap_ext. intros _ val _.
  case_bool_decide as Hs.
  - destruct (blank val) eqn:Hb; [|done]. by apply strip_nil_iff in Hb.
  - apply strip_nil_iff in Hs. by rewrite Hs.
Qed.

Lemma take_until_app (c : N) (l1 l2 : str) :
  c ∉ l1 → take_until c (l1 ++ c :: l2) = l1.
Proof.
  induction l1 as [|x l1 IH]; simpl; intros Hc.
  - by rewrite bool_decide_eq_true_2.
  - apply not_elem_of_cons in Hc as [Hne Hc].
    rewrite bool_decide_eq_false_2 by done. by rewrite IH.
Qed.

Lemma take_until_all (c : N) (l : str) : c ∉ l → take_until c l = l.
Proof.
  induction l as [|x l IH]; simpl; intros Hc; [done|].
  apply not_elem_of_cons in Hc as [Hne Hc].
  rewrite bool_decide_eq_false_2 by done. by rewrite IH.
Qed.

Lemma basename_of_path (dir base : str) :
  slash ∉ base → basename (dir ++ slash :: base) = base.
Proof.
  intros Hb. unfold basename.
  rewrite list.reverse_app, reverse_cons, <- app_assoc. simpl.
  rewrite take_until_app by (by rewrite elem_of_reverse).
  apply list.reverse_involutive.
Qed.

Lemma basename_plain (base : str) : slash ∉ base → basename base = base.
Proof.
  intros Hb. unfold basename.
  rewrite take_until_all by (by rewrite elem_of_reverse).
  apply list.reverse_involutive.
Qed.

Lemma splitext_root_of_name (name ext : str) :
  name ≠ [] → dot ∉ name → dot ∉ ext →
  splitext_root (name ++ dot :: ext) = name.
Proof.
  intros Hne Hn He. unfold splitext_root.
  rewrite list.reverse_app, reverse_cons, <- app_assoc. simpl.
  rewrite take_until_app by (by rewrite elem_of_reverse).
  rewrite bool_decide_eq_false_2
    by (rewrite length_app; simpl; lia).
  assert (drop (S (length (reverse ext)))
            (reverse ext ++ dot :: reverse name) = reverse name) as ->.
  { rewrite <- (drop_app_length (reverse ext ++ [dot]) (reverse name)) at 2.
    rewrite length_app, <- app_assoc, Nat.add_1_r. reflexivity. }
  destruct name as [|x name]; [done|].
  apply not_elem_of_cons in Hn as [Hx _].
  rewrite reverse_cons, forallb_app. simpl.
  rewrite bool_decide_eq_false_2 by done.
  rewrite andb_false_r. rewrite <- reverse_cons.
  apply list.reverse_involutive.
Qed.

(** X18: the table is named after the file: for a path whose last component
    is [name.ext], where [name] is not empty and holds no dot, the table
    name is [name], whatever the directory. *)
Theorem table_name_of_path (dir name ext : str) :
  name ≠ [] → slash ∉ name → dot ∉ name → slash ∉ ext → dot ∉ ext →
  table_name_of (dir ++ slash :: name ++ dot :: ext) = name
  ∧ table_name_of (name ++ dot :: ext) = name.
Proof.
  intros Hne Hsn Hdn Hse Hde. unfold table_name_of.
  assert (slash ∉ name ++ dot :: ext) as Hs.
  { rewrite not_elem_of_app, not_elem_of_cons. by split_and!. }
  rewrite basename_of_path, basename_plain by done.
  split; by apply splitext_root_of_name.
Qed.

Lemma table_name_of_path_witness :
  table_name_of (lit "/data/in" ++ slash :: lit "zip_county" ++ dot :: lit "csv")
    = lit "zip_county"
  ∧ table_name_of (lit "zip_county" ++ dot :: lit "csv") = lit "zip_county".
Proof.
  apply table_name_of_path; [discriminate|..];
    rewrite list_elem_of_In; vm_compute; intros H;
    repeat (destruct H as [H|H]; [discriminate H|]); exact H.
Defined.

End loader_more.
